(** * OctoPrint printer core: a shallow embedding of [src/octoprint/printer.py]

    The Python module defines the [Printer] orchestrator, the [GcodeLoader] and
    [SdFileStreamer] worker threads and the rate-limited [StateMonitor].  Each
    is embedded below as plain Rocq functions: Python strings are
    [String.string] (one [ascii] per byte), Python floats used as fractions,
    temperatures and heights are rationals [Q], optional attributes that may
    be [None] are [option], and exceptions are the [Exc] branch of [Res]. *)

From Stdlib Require Import String Ascii List ZArith QArith Bool Lia.
Import ListNotations.

Local Open Scope Z_scope.

(** ** Python string helpers *)

Module Py.

Definition is_space (c : ascii) : bool :=
  match nat_of_ascii c with
  | 32 | 9 | 10 | 11 | 12 | 13 => true
  | _ => false
  end%nat.

Fixpoint lstrip (s : string) : string :=
  match s with
  | EmptyString => EmptyString
  | String c r => if is_space c then lstrip r else s
  end.

Fixpoint rev_str (s : string) (acc : string) : string :=
  match s with
  | EmptyString => acc
  | String c r => rev_str r (String c acc)
  end.

(** [str.strip()] with no argument: drop ASCII whitespace at both ends. *)
Definition strip (s : string) : string :=
  rev_str (lstrip (rev_str (lstrip s) EmptyString)) EmptyString.

(** [s.find(c)] for a one-character needle: index of the first occurrence, -1 if absent. *)
Fixpoint find (c : ascii) (s : string) : Z :=
  match s with
  | EmptyString => -1
  | String d r =>
      if Ascii.eqb c d then 0
      else let i := find c r in if i <? 0 then -1 else i + 1
  end.

(** [s.rfind(c)]: index of the last occurrence, -1 if absent. *)
Fixpoint rfind (c : ascii) (s : string) : Z :=
  match s with
  | EmptyString => -1
  | String d r =>
      let i := rfind c r in
      if 0 <=? i then i + 1 else if Ascii.eqb c d then 0 else -1
  end.

Definition contains (c : ascii) (s : string) : bool := 0 <=? find c s.

(** [s[:i]], with Python's reading of a negative [i] as [len(s) + i]. *)
Definition take (i : Z) (s : string) : string :=
  let n := Z.of_nat (String.length s) in
  let j := if i <? 0 then Z.max 0 (n + i) else Z.min i n in
  substring 0 (Z.to_nat j) s.

(** [s[i:]] for [0 <= i]. *)
Definition drop (i : Z) (s : string) : string :=
  substring (Z.to_nat i) (String.length s - Z.to_nat i) s.

Definition startswith (pre s : string) : bool := String.prefix pre s.

(** Iteration over a text file: lines are cut after each newline and keep it;
    the last line may lack one. *)
Fixpoint lines_aux (s : string) (cur : string) : list string :=
  match s with
  | EmptyString => match cur with EmptyString => [] | _ => [rev_str cur EmptyString] end
  | String c r =>
      if Ascii.eqb c "010"%char then rev_str (String c cur) EmptyString :: lines_aux r EmptyString
      else lines_aux r (String c cur)
  end.

Definition file_lines (s : string) : list string := lines_aux s EmptyString.

(** [file.tell()] during [for line in file] (Python 2, [fileobject.c]).  The
    iterator ([file_iternext], [readahead_get_line_skip]) hands out lines from
    a read-ahead buffer filled by [fread] of [READAHEAD_BUFSIZE] bytes; when a
    line runs past the buffer, the buffer is dropped and the search goes on in
    a fresh one of [bufsize + (bufsize >> 2)] bytes, and so on.  A buffer that
    is used up exactly is dropped.  [tell()] is [ftell] of the underlying
    stream: the number of bytes read from the file so far, [rd].  The buffer
    holds the bytes from [bp] (the end of the last line handed out) to [rd],
    and is present exactly when [bp < rd]. *)
Definition READAHEAD_BUFSIZE : nat := 8192.

(** The retries of [readahead_get_line_skip] until the buffer reaches the end
    [e] of the line, or the file ends at [size] (an [fread] that returns
    nothing leaves [rd] as it is).  The [fuel] bounds the number of reads:
    every read moves [rd] by at least one byte until the end of the file. *)
Fixpoint readahead_chase (fuel rd e size bufsize : nat) : nat :=
  match fuel with
  | O => rd
  | S f =>
      if (e <=? rd)%nat then rd
      else readahead_chase f (Nat.min size (rd + bufsize)) e size (bufsize + bufsize / 4)
  end.

(** [rd] once the line ending at [e] (just after its newline, or at the end of
    the file) has been handed out, from the buffer state [bp], [rd] before it:
    a present buffer is searched first, otherwise a new one is read. *)
Definition next_line_tell (bp rd e size : nat) : nat :=
  let rd1 := if (bp <? rd)%nat then rd else Nat.min size (rd + READAHEAD_BUFSIZE) in
  readahead_chase e rd1 e size (READAHEAD_BUFSIZE + READAHEAD_BUFSIZE / 4).

(** [os.path.basename]: the part after the last slash. *)
Definition basename (s : string) : string := drop (rfind "/"%char s + 1) s.

End Py.

(** ** G-code command entries

    The loader appends either a bare string or a pair [(line, lineType)]. *)
Inductive GcodeEntry :=
| Bare (cmd : string)
| Typed (cmd : string) (lineType : string).

(** ** GcodeLoader.run

    The loop threads the position [pos] of the next line and the read-ahead
    state [rd] of [for line in file]; [file.tell()] after a line is
    [Py.next_line_tell] (it runs ahead of the lines handed out), and the file
    size is the length of the contents.  The result is the command list
    handed to the loaded-callback and the successive progress fractions given
    to the progress-callback. *)
Module GcodeLoader.

Definition fraction (pos size : nat) : Q := inject_Z (Z.of_nat pos) / inject_Z (Z.of_nat size).

Fixpoint run_lines (lines : list string) (pos rd size : nat) (prevLineType lineType : string)
  : list GcodeEntry * list Q :=
  match lines with
  | [] => ([], [])
  | line0 :: rest =>
      let lineType' :=
        if Py.startswith ";TYPE:" line0 then Py.strip (Py.drop 6 line0) else lineType in
      let line1 :=
        if Py.contains ";"%char line0 then Py.take (Py.find ";"%char line0) line0 else line0 in
      let line := Py.strip line1 in
      let pos' := (pos + String.length line0)%nat in
      let rd' := Py.next_line_tell pos rd pos' size in
      let '(emitted, prev') :=
        if (0 <? String.length line)%nat then
          (if negb (String.eqb prevLineType lineType')
           then [Typed line lineType'] else [Bare line], lineType')
        else ([], prevLineType) in
      let '(cmds, progress) := run_lines rest pos' rd' size prev' lineType' in
      (emitted ++ cmds, fraction rd' size :: progress)
  end.

Definition run (contents : string) : list GcodeEntry * list Q :=
  let '(cmds, progress) :=
    run_lines (Py.file_lines contents) 0 0 (String.length contents) "CUSTOM" "CUSTOM" in
  (Bare "M110 N0" :: cmds, progress).

End GcodeLoader.

(** ** SdFileStreamer: the device file name *)
Definition sd_filename (filename : string) : string :=
  let name := Py.take (Py.rfind "."%char filename) filename in
  (Py.take 8 name ++ ".GCO")%string.

(** ** Exceptions *)
Inductive Exn := AttributeError | IOError | CommError.

Inductive Res (A : Type) := Ok (a : A) | Exc (e : Exn).
Arguments Ok {A} a.
Arguments Exc {A} e.

Definition bind {A B} (r : Res A) (k : A -> Res B) : Res B :=
  match r with Ok a => k a | Exc e => Exc e end.

Notation "x <- r ;; k" := (bind r (fun x => k)) (at level 61, r at next level, right associativity).

(** ** Communicator boundary ([octoprint.util.comm.MachineCom], not in this module)

    Only the status the orchestrator queries is kept, plus a trace of the
    commanding calls it issues. *)
Inductive ConnState :=
| STATE_NONE | STATE_OPEN_SERIAL | STATE_DETECT_SERIAL | STATE_CONNECTING
| STATE_OPERATIONAL | STATE_PRINTING | STATE_PAUSED | STATE_CLOSED
| STATE_ERROR | STATE_CLOSED_WITH_ERROR.

Record Comm := mkComm {
  c_operational : bool;
  c_printing : bool;
  c_paused : bool;
  c_error : bool;
  c_closedOrError : bool;
  c_sdReady : bool;
  c_busy : bool;
  c_stateString : string
}.

Inductive CommCall :=
| CClose
| CSendCommand (cmd : string)
| CPrintSdFile
| CPrintGCode (cmds : list GcodeEntry)
| CSelectSdFile (name : string)
| CStartSdFileTransfer (name : string)
| CEndSdFileTransfer (name : string).

(** ** StateMonitor data

    The dictionaries handed to the monitor become records.  Formatted values
    (the [%.2f mm] format and [util.getFormattedTimeDelta]) are kept symbolically. *)
Inductive Formatted := FmtMm (z : Q) | FmtSeconds (s : Q) | FmtMinutes (m : Q).

Record Flags := mkFlags {
  fl_operational : bool; fl_printing : bool; fl_closedOrError : bool; fl_error : bool;
  fl_loading : bool; fl_paused : bool; fl_ready : bool; fl_sdReady : bool
}.

Record StateInfo := mkStateInfo {
  si_state : option ConnState; si_stateString : string; si_flags : Flags }.

Record JobData := mkJobData {
  jd_filename : option string; jd_lines : option nat;
  jd_estimatedPrintTime : option Q; jd_filament : option Q }.

Record GcodeData := mkGcodeData {
  gd_filename : option string; gd_progress : option Q; gd_mode : option string }.

Record SdUploadData := mkSdUploadData {
  su_filename : option string; su_progress : option Q }.

Record ProgressData := mkProgressData {
  pd_progress : option Q; pd_currentLine : option nat;
  pd_printTime : option Formatted; pd_printTimeLeft : option Formatted }.

(** One temperature sample as passed to [addTemperature]. *)
Record TempSample := mkTempSample {
  ts_currentTime : Z; ts_temp : Q; ts_bedTemp : Q; ts_targetTemp : Q; ts_targetBedTemp : Q }.

(** The six snapshot attributes of a [StateMonitor] and its [_changeEvent]. *)
Record Monitor := mkMonitor {
  m_state : option StateInfo;
  m_jobData : option JobData;
  m_gcodeData : option GcodeData;
  m_sdUploadData : option SdUploadData;
  m_currentZ : option Formatted;
  m_progress : option ProgressData;
  m_changeEvent : bool
}.

(** The value returned by [getCurrentData]. *)
Record Snapshot := mkSnapshot {
  sn_state : option StateInfo; sn_job : option JobData; sn_gcode : option GcodeData;
  sn_sdUpload : option SdUploadData; sn_currentZ : option Formatted;
  sn_progress : option ProgressData }.

Module StateMonitor.

Definition getCurrentData (m : Monitor) : Snapshot :=
  mkSnapshot (m_state m) (m_jobData m) (m_gcodeData m) (m_sdUploadData m)
             (m_currentZ m) (m_progress m).

Definition setState (m : Monitor) (v : StateInfo) : Monitor :=
  mkMonitor (Some v) (m_jobData m) (m_gcodeData m) (m_sdUploadData m) (m_currentZ m) (m_progress m) true.
Definition setJobData (m : Monitor) (v : JobData) : Monitor :=
  mkMonitor (m_state m) (Some v) (m_gcodeData m) (m_sdUploadData m) (m_currentZ m) (m_progress m) true.
Definition setGcodeData (m : Monitor) (v : GcodeData) : Monitor :=
  mkMonitor (m_state m) (m_jobData m) (Some v) (m_sdUploadData m) (m_currentZ m) (m_progress m) true.
Definition setSdUploadData (m : Monitor) (v : SdUploadData) : Monitor :=
  mkMonitor (m_state m) (m_jobData m) (m_gcodeData m) (Some v) (m_currentZ m) (m_progress m) true.
Definition setCurrentZ (m : Monitor) (v : option Formatted) : Monitor :=
  mkMonitor (m_state m) (m_jobData m) (m_gcodeData m) (m_sdUploadData m) v (m_progress m) true.
Definition setProgress (m : Monitor) (v : ProgressData) : Monitor :=
  mkMonitor (m_state m) (m_jobData m) (m_gcodeData m) (m_sdUploadData m) (m_currentZ m) (Some v) true.

(** [addTemperature], [addLog] and [addMessage] hand their argument to the
    observer fan-out (see [Registry]) and set the change event. *)
Definition signal (m : Monitor) : Monitor :=
  mkMonitor (m_state m) (m_jobData m) (m_gcodeData m) (m_sdUploadData m) (m_currentZ m) (m_progress m) true.

(** The monitor as [__init__] leaves it, before [reset]. *)
Definition init : Monitor := mkMonitor None None None None None None false.

End StateMonitor.

(** ** Printer

    The attributes of [Printer.__init__], grouped: the job and worker handles,
    the scalar print status, the bounded histories, the monitor and the trace
    of commanding calls sent to [self._comm].  [p_fileData] stands for
    [gcodeManager.getFileData] (the [gcodeAnalysis] estimates of a file, if
    any), [p_sdSupport] for the [feature.sdSupport] setting. *)

(** A [GcodeLoader] thread: the file it reads and whether it was created with
    [_onGcodeLoadedToPrint] rather than [_onGcodeLoaded] as loaded-callback. *)
Record Loader := mkLoader { ld_filename : string; ld_printAfterLoading : bool }.

(** An [SdFileStreamer] thread: target name and local file. *)
Record Streamer := mkStreamer { st_filename : string; st_file : string }.

Record Job := mkJob {
  j_gcodeList : option (list GcodeEntry);
  j_filename : option string;
  j_gcodeLoader : option Loader;
  j_sdPrinting : bool;
  j_sdFile : option string;
  j_sdStreamer : option Streamer;
  (** [_sdPrintAfterSelect] is only assigned by [selectSdFile]: [None] means
      the attribute does not exist yet. *)
  j_sdPrintAfterSelect : option bool
}.

Record Status := mkStatus {
  s_currentZ : option Q;
  s_progress : option Q;
  s_printTime : option Q;
  s_printTimeLeft : option Q;
  s_temp : option Q;
  s_bedTemp : option Q;
  s_targetTemp : option Q;
  s_targetBedTemp : option Q
}.

Record Hist := mkHist {
  h_log : list string;
  h_messages : list string;
  h_actual : list (Z * Q);
  h_target : list (Z * Q);
  h_actualBed : list (Z * Q);
  h_targetBed : list (Z * Q)
}.

Record Printer := mkPrinter {
  p_fileData : string -> option (option Q * option Q);
  p_sdSupport : bool;
  p_comm : option Comm;
  p_state : option ConnState;
  p_job : Job;
  p_status : Status;
  p_hist : Hist;
  p_mon : Monitor;
  p_calls : list CommCall
}.

Module Printer.

(** Field updates. *)
Definition set_comm (p : Printer) (c : option Comm) : Printer :=
  mkPrinter (p_fileData p) (p_sdSupport p) c (p_state p) (p_job p) (p_status p) (p_hist p) (p_mon p) (p_calls p).
Definition set_job (p : Printer) (j : Job) : Printer :=
  mkPrinter (p_fileData p) (p_sdSupport p) (p_comm p) (p_state p) j (p_status p) (p_hist p) (p_mon p) (p_calls p).
Definition set_status (p : Printer) (s : Status) : Printer :=
  mkPrinter (p_fileData p) (p_sdSupport p) (p_comm p) (p_state p) (p_job p) s (p_hist p) (p_mon p) (p_calls p).
Definition set_hist (p : Printer) (h : Hist) : Printer :=
  mkPrinter (p_fileData p) (p_sdSupport p) (p_comm p) (p_state p) (p_job p) (p_status p) h (p_mon p) (p_calls p).
Definition set_mon (p : Printer) (m : Monitor) : Printer :=
  mkPrinter (p_fileData p) (p_sdSupport p) (p_comm p) (p_state p) (p_job p) (p_status p) (p_hist p) m (p_calls p).
Definition call (p : Printer) (c : CommCall) : Printer :=
  mkPrinter (p_fileData p) (p_sdSupport p) (p_comm p) (p_state p) (p_job p) (p_status p) (p_hist p) (p_mon p) (p_calls p ++ [c]).

Definition with_gcodeList (j : Job) v := mkJob v (j_filename j) (j_gcodeLoader j) (j_sdPrinting j) (j_sdFile j) (j_sdStreamer j) (j_sdPrintAfterSelect j).
Definition with_filename (j : Job) v := mkJob (j_gcodeList j) v (j_gcodeLoader j) (j_sdPrinting j) (j_sdFile j) (j_sdStreamer j) (j_sdPrintAfterSelect j).
Definition with_gcodeLoader (j : Job) v := mkJob (j_gcodeList j) (j_filename j) v (j_sdPrinting j) (j_sdFile j) (j_sdStreamer j) (j_sdPrintAfterSelect j).
Definition with_sdPrinting (j : Job) v := mkJob (j_gcodeList j) (j_filename j) (j_gcodeLoader j) v (j_sdFile j) (j_sdStreamer j) (j_sdPrintAfterSelect j).
Definition with_sdFile (j : Job) v := mkJob (j_gcodeList j) (j_filename j) (j_gcodeLoader j) (j_sdPrinting j) v (j_sdStreamer j) (j_sdPrintAfterSelect j).
Definition with_sdStreamer (j : Job) v := mkJob (j_gcodeList j) (j_filename j) (j_gcodeLoader j) (j_sdPrinting j) (j_sdFile j) v (j_sdPrintAfterSelect j).
Definition with_sdPrintAfterSelect (j : Job) v := mkJob (j_gcodeList j) (j_filename j) (j_gcodeLoader j) (j_sdPrinting j) (j_sdFile j) (j_sdStreamer j) v.

Definition upd_job (p : Printer) (f : Job -> Job) : Printer := set_job p (f (p_job p)).
Definition upd_mon (p : Printer) (f : Monitor -> Monitor) : Printer := set_mon p (f (p_mon p)).

(** Python truthiness of the optional values tested with a bare [if]. *)
Definition truthy_str (s : option string) : bool :=
  match s with Some v => negb (String.eqb v EmptyString) | None => false end.
Definition truthy_num (q : option Q) : option Q :=
  match q with Some v => if Qeq_bool v 0 then None else Some v | None => None end.
Definition truthy_list {A} (l : option (list A)) : bool :=
  match l with Some (_ :: _) => true | _ => false end.

(** *** State reports *)

Definition getStateString (p : Printer) : string :=
  match p_comm p with None => "Offline" | Some c => c_stateString c end.

Definition isClosedOrError (p : Printer) : bool :=
  match p_comm p with None => true | Some c => c_closedOrError c end.
Definition isOperational (p : Printer) : bool :=
  match p_comm p with None => false | Some c => c_operational c end.
Definition isPrinting (p : Printer) : bool :=
  match p_comm p with None => false | Some c => c_printing c end.
Definition isPaused (p : Printer) : bool :=
  match p_comm p with None => false | Some c => c_paused c end.
Definition isError (p : Printer) : bool :=
  match p_comm p with None => false | Some c => c_error c end.

Definition isReady (p : Printer) : bool :=
  let j := p_job p in
  match j_gcodeLoader j, j_sdStreamer j with
  | None, None => truthy_list (j_gcodeList j) || truthy_str (j_sdFile j)
  | _, _ => false
  end.

Definition isLoading (p : Printer) : bool :=
  match j_gcodeLoader (p_job p), j_sdStreamer (p_job p) with
  | None, None => false
  | _, _ => true
  end.

Definition getStateFlags (p : Printer) : Flags :=
  let sdReady := match p_comm p with
                 | Some c => if p_sdSupport p then c_sdReady c else false
                 | None => false end in
  mkFlags (isOperational p) (isPrinting p) (isClosedOrError p) (isError p)
          (isLoading p) (isPaused p) (isReady p) sdReady.

(** The recurring [self._stateMonitor.setState({...})]. *)
Definition pushState (p : Printer) : Printer :=
  upd_mon p (fun m => StateMonitor.setState m
               (mkStateInfo (p_state p) (getStateString p) (getStateFlags p))).

(** *** State mutators *)

Definition setCurrentZ (p : Printer) (z : option Q) : Printer :=
  let s := p_status p in
  let p1 := set_status p (mkStatus z (s_progress s) (s_printTime s) (s_printTimeLeft s)
                                   (s_temp s) (s_bedTemp s) (s_targetTemp s) (s_targetBedTemp s)) in
  let formattedCurrentZ := option_map FmtMm (truthy_num z) in
  upd_mon p1 (fun m => StateMonitor.setCurrentZ m formattedCurrentZ).

Definition setProgressData (p : Printer) (progress : option Q) (currentLine : option nat)
    (printTime printTimeLeft : option Q) : Printer :=
  let s := p_status p in
  let p1 := set_status p (mkStatus (s_currentZ s) progress printTime printTimeLeft
                                   (s_temp s) (s_bedTemp s) (s_targetTemp s) (s_targetBedTemp s)) in
  let formattedPrintTime := option_map FmtSeconds (truthy_num printTime) in
  let formattedPrintTimeLeft := option_map FmtMinutes (truthy_num printTimeLeft) in
  upd_mon p1 (fun m => StateMonitor.setProgress m
                 (mkProgressData progress currentLine formattedPrintTime formattedPrintTimeLeft)).

Definition setJobData (p : Printer) (filename : option string) (gcodeList : option (list GcodeEntry))
  : Printer :=
  let p1 := upd_job p (fun j => with_gcodeList (with_filename j filename) gcodeList) in
  let lines := if truthy_list gcodeList
               then option_map (@List.length GcodeEntry) gcodeList else None in
  let '(formattedFilename, estimatedPrintTime, filament) :=
    match filename with
    | Some f =>
        if truthy_str filename then
          match p_fileData p f with
          | Some (est, fil) => (Some (Py.basename f), est, fil)
          | None => (Some (Py.basename f), None, None)
          end
        else (None, None, None)
    | None => (None, None, None)
    end in
  upd_mon p1 (fun m => StateMonitor.setJobData m
                 (mkJobData formattedFilename lines estimatedPrintTime filament)).

(** [self._log = self._log[-300:]] and its siblings. *)
Definition cap300 {A} (l : list A) : list A := skipn (length l - 300) l.

Definition addLog (p : Printer) (log : string) : Printer :=
  let h := p_hist p in
  let p1 := set_hist p (mkHist (cap300 (h_log h ++ [log])) (h_messages h)
                               (h_actual h) (h_target h) (h_actualBed h) (h_targetBed h)) in
  upd_mon p1 StateMonitor.signal.

Definition addMessage (p : Printer) (message : string) : Printer :=
  let h := p_hist p in
  let p1 := set_hist p (mkHist (h_log h) (cap300 (h_messages h ++ [message]))
                               (h_actual h) (h_target h) (h_actualBed h) (h_targetBed h)) in
  upd_mon p1 StateMonitor.signal.

(** [currentTimeUtc] is [int(time.time() * 1000)], passed in. *)
Definition addTemperatureData (p : Printer) (currentTimeUtc : Z)
    (temp bedTemp targetTemp bedTargetTemp : Q) : Printer :=
  let h := p_hist p in
  let s := p_status p in
  let p1 := set_hist p (mkHist (h_log h) (h_messages h)
                         (cap300 (h_actual h ++ [(currentTimeUtc, temp)]))
                         (cap300 (h_target h ++ [(currentTimeUtc, targetTemp)]))
                         (cap300 (h_actualBed h ++ [(currentTimeUtc, bedTemp)]))
                         (cap300 (h_targetBed h ++ [(currentTimeUtc, bedTargetTemp)]))) in
  let p2 := set_status p1 (mkStatus (s_currentZ s) (s_progress s) (s_printTime s) (s_printTimeLeft s)
                                    (Some temp) (Some bedTemp) (Some targetTemp) (Some bedTargetTemp)) in
  upd_mon p2 StateMonitor.signal.

(** *** Printer commands *)

Definition connect (p : Printer) (c : Comm) : Printer :=
  let p1 := match p_comm p with Some _ => call p CClose | None => p end in
  set_comm p1 (Some c).

Definition disconnect (p : Printer) : Printer :=
  let p1 := match p_comm p with Some _ => call p CClose | None => p end in
  set_comm p1 None.

(** [for command in commands: self._comm.sendCommand(command)]; with no
    Communicator the attribute lookup on [None] raises. *)
Fixpoint commands (p : Printer) (cmds : list string) : Res Printer :=
  match cmds with
  | [] => Ok p
  | cmd :: rest =>
      match p_comm p with
      | None => Exc AttributeError
      | Some _ => commands (call p (CSendCommand cmd)) rest
      end
  end.

Definition command (p : Printer) (cmd : string) : Res Printer := commands p [cmd].

Definition loadGcode (p : Printer) (file : string) (printAfterLoading : bool) : Printer :=
  match isPrinting p, j_gcodeLoader (p_job p) with
  | false, None =>
      let p1 := upd_job p (fun j => with_sdFile j None) in
      let p2 := setJobData p1 None None in
      let p3 := upd_job p2 (fun j => with_gcodeLoader j (Some (mkLoader file printAfterLoading))) in
      pushState p3
  | _, _ => p
  end.

Definition startPrint (p : Printer) : Printer :=
  match p_comm p with
  | None => p
  | Some c =>
      if negb (c_operational c) then p else
      match j_gcodeList (p_job p), j_sdFile (p_job p) with
      | None, None => p
      | _, _ =>
          if c_printing c then p else
          let p1 := setCurrentZ p None in
          match j_sdFile (p_job p1), j_gcodeList (p_job p1) with
          | Some _, _ => call (upd_job p1 (fun j => with_sdPrinting j true)) CPrintSdFile
          | None, Some l => call p1 (CPrintGCode l)
          | None, None => p1
          end
      end
  end.

(** *** SD card handling and worker callbacks *)

Definition selectSdFile (p : Printer) (filename : string) (printAfterSelect : bool) : Printer :=
  match p_comm p with
  | None => p
  | Some _ => call (upd_job p (fun j => with_sdPrintAfterSelect j (Some printAfterSelect)))
                   (CSelectSdFile filename)
  end.

(** [mcSdSelected] reads [self._sdPrintAfterSelect], which raises when
    [selectSdFile] never assigned it. *)
Definition mcSdSelected (p : Printer) (filename : string) (filesize : Z) : Res Printer :=
  let p1 := upd_job p (fun j => with_sdFile j (Some filename)) in
  let p2 := setJobData p1 (Some filename) None in
  let p3 := pushState p2 in
  match j_sdPrintAfterSelect (p_job p3) with
  | None => Exc AttributeError
  | Some true => Ok (startPrint p3)
  | Some false => Ok p3
  end.

Definition onSdFileStreamProgress (p : Printer) (filename : string) (progress : Q) : Printer :=
  upd_mon p (fun m => StateMonitor.setSdUploadData m (mkSdUploadData (Some filename) (Some progress))).

Definition onSdFileStreamFinish (p : Printer) (filename : string) : Printer :=
  let p1 := setCurrentZ p None in
  let p2 := setProgressData p1 None None None None in
  let p3 := upd_job p2 (fun j => with_sdStreamer j None) in
  let p4 := upd_mon p3 (fun m => StateMonitor.setSdUploadData m (mkSdUploadData None None)) in
  pushState p4.

Definition onGcodeLoadingProgress (p : Printer) (filename : string) (progress : Q) : Printer :=
  upd_mon p (fun m => StateMonitor.setGcodeData m
                (mkGcodeData (Some (Py.basename filename)) (Some progress) (Some "loading"%string))).

Definition onGcodeLoaded (p : Printer) (filename : string) (gcodeList : list GcodeEntry) : Printer :=
  let p1 := setJobData p (Some filename) (Some gcodeList) in
  let p2 := setCurrentZ p1 None in
  let p3 := setProgressData p2 None None None None in
  let p4 := upd_job p3 (fun j => with_gcodeLoader j None) in
  let p5 := upd_mon p4 (fun m => StateMonitor.setGcodeData m (mkGcodeData None None None)) in
  pushState p5.

Definition onGcodeLoadedToPrint (p : Printer) (filename : string) (gcodeList : list GcodeEntry)
  : Printer :=
  startPrint (onGcodeLoaded p filename gcodeList).

(** The [GcodeLoader] thread of [p] runs to completion on the given file
    contents: its progress reports, then the loaded-callback chosen at load time. *)
Definition gcodeLoaderRun (p : Printer) (contents : string) : Printer :=
  match j_gcodeLoader (p_job p) with
  | None => p
  | Some ld =>
      let '(gcodeList, progress) := GcodeLoader.run contents in
      let p1 := fold_left (fun q pr => onGcodeLoadingProgress q (ld_filename ld) pr) progress p in
      if ld_printAfterLoading ld
      then onGcodeLoadedToPrint p1 (ld_filename ld) gcodeList
      else onGcodeLoaded p1 (ld_filename ld) gcodeList
  end.

(** [Printer.__init__]: empty state, then [self._stateMonitor.reset(...)]. *)
Definition init (fileData : string -> option (option Q * option Q)) (sdSupport : bool) : Printer :=
  let p0 := mkPrinter fileData sdSupport None None
              (mkJob None None None false None None None)
              (mkStatus None None None None None None None None)
              (mkHist [] [] [] [] [] []) StateMonitor.init [] in
  let m0 := StateMonitor.setState StateMonitor.init
              (mkStateInfo None (getStateString p0) (getStateFlags p0)) in
  let m1 := StateMonitor.setJobData m0 (mkJobData None None None None) in
  let m2 := StateMonitor.setGcodeData m1 (mkGcodeData None None None) in
  let m3 := StateMonitor.setSdUploadData m2 (mkSdUploadData None None) in
  let m4 := StateMonitor.setProgress m3 (mkProgressData None None None None) in
  let m5 := StateMonitor.setCurrentZ m4 None in
  set_mon p0 m5.

End Printer.

(** ** SdFileStreamer.run

    Each operation of the [try] body that may raise is named by [Op]; the
    oracle [raises] says which of them raise on a given run (an I/O error of
    [os.stat], [open] or the line iteration, or an exception out of a
    Communicator call or the progress-callback).  [Event] records the calls
    the thread makes, in order; a call that raises is recorded before its
    exception.  The progress after a line is [file.tell()] over the file
    size, with [tell()] under read-ahead as in [GcodeLoader.run]. *)
Module SdStreamer.

Inductive Op :=
| OpStat | OpOpen | OpStart | OpRead (i : nat) | OpSend (i : nat) | OpProgress (i : nat) | OpEnd.

Inductive Event :=
| EStart (sdFilename : string)
| ESend (line : string)
| EProgress (sdFilename : string) (progress : Q)
| EEnd (sdFilename : string)
| EFinish (sdFilename : string).

Fixpoint stream_lines (sdFilename : string) (lines : list string) (i pos rd size : nat)
    (raises : Op -> bool) : list Event * Res unit :=
  match lines with
  | [] => ([], Ok tt)
  | line0 :: rest =>
      if raises (OpRead i) then ([], Exc IOError) else
      let line1 :=
        if Py.contains ";"%char line0 then Py.take (Py.find ";"%char line0) line0 else line0 in
      let line := Py.strip line1 in
      let '(sent, r1) :=
        if (0 <? String.length line)%nat
        then ([ESend line], if raises (OpSend i) then Exc CommError else Ok tt)
        else ([], Ok tt) in
      match r1 with
      | Exc e => (sent, Exc e)
      | Ok _ =>
          let pos' := (pos + String.length line0)%nat in
          let rd' := Py.next_line_tell pos rd pos' size in
          let ev := EProgress sdFilename (GcodeLoader.fraction rd' size) in
          if raises (OpProgress i) then (sent ++ [ev], Exc CommError) else
          let '(tr, r) := stream_lines sdFilename rest (S i) pos' rd' size raises in
          (sent ++ ev :: tr, r)
      end
  end.

(** The [try] block. *)
Definition body (sdFilename contents : string) (raises : Op -> bool) : list Event * Res unit :=
  if raises OpStat then ([], Exc IOError) else
  if raises OpOpen then ([], Exc IOError) else
  if raises OpStart then ([EStart sdFilename], Exc CommError) else
  let '(tr, r) := stream_lines sdFilename (Py.file_lines contents) 0 0 0 (String.length contents) raises in
  (EStart sdFilename :: tr, r).

(** [run]: the busy guard, the name, the [try] body and its [finally] clause. *)
Definition run (busy : bool) (filename contents : string) (raises : Op -> bool)
  : list Event * Res unit :=
  if busy then ([], Ok tt) else
  let sdFilename := sd_filename filename in
  let '(tr, r) := body sdFilename contents raises in
  if raises OpEnd then (tr ++ [EEnd sdFilename], Exc CommError)
  else (tr ++ [EEnd sdFilename; EFinish sdFilename], r).

Definition is_finish (e : Event) : bool := match e with EFinish _ => true | _ => false end.

(** The thread's calls as seen by the orchestrator: Communicator calls go to
    the trace, the two callbacks are [_onSdFileStreamProgress] and
    [_onSdFileStreamFinish]. *)
Definition apply_event (p : Printer) (e : Event) : Printer :=
  match e with
  | EStart s => Printer.call p (CStartSdFileTransfer s)
  | ESend s => Printer.call p (CSendCommand s)
  | EProgress s q => Printer.onSdFileStreamProgress p s q
  | EEnd s => Printer.call p (CEndSdFileTransfer s)
  | EFinish s => Printer.onSdFileStreamFinish p s
  end.

End SdStreamer.

(** The SD-upload entry point of [Printer] and the run of the thread it starts. *)
Module Printer2.
Import Printer.

(** [Printer.addSdFile]: creates and starts the streamer thread. *)
Definition addSdFile (p : Printer) (filename file : string) : Printer :=
  match p_comm p with
  | None => p
  | Some _ => upd_job p (fun j => with_sdStreamer j (Some (mkStreamer filename file)))
  end.

(** The streamer thread of [p] runs to completion on the given file contents,
    with the Communicator reporting [busy]. *)
Definition sdStreamerRun (p : Printer) (busy : bool) (contents : string)
    (raises : SdStreamer.Op -> bool) : Printer * Res unit :=
  match j_sdStreamer (p_job p) with
  | None => (p, Ok tt)
  | Some st =>
      let '(tr, r) := SdStreamer.run busy (st_filename st) contents raises in
      (fold_left SdStreamer.apply_event tr p, r)
  end.

End Printer2.

(** ** Observer fan-out ([_send*Callbacks])

    An observer is the object passed to [registerCallback]; each of its five
    methods either returns or raises. *)
Module Registry.

Record Observer := mkObserver {
  ob_id : nat;
  ob_addTemperature : TempSample -> Res unit;
  ob_addLog : string -> Res unit;
  ob_addMessage : string -> Res unit;
  ob_sendCurrentData : Snapshot -> Res unit;
  ob_sendUpdateTrigger : string -> Res unit
}.

Inductive Event :=
| EvTemperature (data : TempSample)
| EvLog (data : string)
| EvMessage (data : string)
| EvCurrentData (data : Snapshot)
| EvUpdateTrigger (type : string).

(** [callback.method(data)]; [copy.deepcopy] of a snapshot is the value itself. *)
Definition invoke (o : Observer) (ev : Event) : list (nat * Event) * Res unit :=
  ([(ob_id o, ev)],
   match ev with
   | EvTemperature d => ob_addTemperature o d
   | EvLog d => ob_addLog o d
   | EvMessage d => ob_addMessage o d
   | EvCurrentData d => ob_sendCurrentData o d
   | EvUpdateTrigger t => ob_sendUpdateTrigger o t
   end).

(** [try: ... except: pass] *)
Definition try_except_pass (r : list (nat * Event) * Res unit) : list (nat * Event) * Res unit :=
  let '(tr, res) := r in
  match res with Ok _ => (tr, Ok tt) | Exc _ => (tr, Ok tt) end.

(** [for callback in self._callbacks: body]: an exception out of the body ends
    the loop and propagates. *)
Fixpoint for_each (obs : list Observer) (body : Observer -> list (nat * Event) * Res unit)
  : list (nat * Event) * Res unit :=
  match obs with
  | [] => ([], Ok tt)
  | o :: rest =>
      let '(t1, r1) := body o in
      match r1 with
      | Exc e => (t1, Exc e)
      | Ok _ => let '(t2, r2) := for_each rest body in (t1 ++ t2, r2)
      end
  end.

Definition sendAddTemperatureCallbacks (obs : list Observer) (data : TempSample) :=
  for_each obs (fun o => try_except_pass (invoke o (EvTemperature data))).
Definition sendAddLogCallbacks (obs : list Observer) (data : string) :=
  for_each obs (fun o => try_except_pass (invoke o (EvLog data))).
Definition sendAddMessageCallbacks (obs : list Observer) (data : string) :=
  for_each obs (fun o => try_except_pass (invoke o (EvMessage data))).
Definition sendCurrentDataCallbacks (obs : list Observer) (data : Snapshot) :=
  for_each obs (fun o => try_except_pass (invoke o (EvCurrentData data))).
Definition sendTriggerUpdateCallbacks (obs : list Observer) (type : string) :=
  for_each obs (fun o => try_except_pass (invoke o (EvUpdateTrigger type))).

End Registry.

(** ** StateMonitor._work

    The worker thread runs beside the threads calling the mutators.  A world
    holds the monitor, the worker's position in the loop body, [_lastUpdate],
    the wall clock in milliseconds and the deliveries made so far (time and
    snapshot handed to [_updateCallback]).  An action is a mutator call from
    another thread, one millisecond passing, or one statement of the worker. *)
Module Broadcaster.

Inductive PC :=
| Waiting                     (** at [self._changeEvent.wait()] *)
| Sleeping (until : Z)        (** in [time.sleep(additionalWaitTime)] *)
| Capturing                   (** before [data = self.getCurrentData()] *)
| Delivering (data : Snapshot) (** before [self._updateCallback(data)] *)
| Stamping                    (** before [self._lastUpdate = time.time()] *)
| Clearing.                   (** before [self._changeEvent.clear()] *)

Record World := mkWorld {
  w_ratelimit : Z;
  w_mon : Monitor;
  w_pc : PC;
  w_lastUpdate : Z;
  w_now : Z;
  w_sent : list (Z * Snapshot)
}.

Inductive MonCall :=
| MSetState (v : StateInfo)
| MSetJobData (v : JobData)
| MSetGcodeData (v : GcodeData)
| MSetSdUploadData (v : SdUploadData)
| MSetProgress (v : ProgressData)
| MSetCurrentZ (v : option Formatted)
| MAddTemperature (t : TempSample)
| MAddLog (s : string)
| MAddMessage (s : string).

Definition apply_call (m : Monitor) (c : MonCall) : Monitor :=
  match c with
  | MSetState v => StateMonitor.setState m v
  | MSetJobData v => StateMonitor.setJobData m v
  | MSetGcodeData v => StateMonitor.setGcodeData m v
  | MSetSdUploadData v => StateMonitor.setSdUploadData m v
  | MSetProgress v => StateMonitor.setProgress m v
  | MSetCurrentZ v => StateMonitor.setCurrentZ m v
  | MAddTemperature _ | MAddLog _ | MAddMessage _ => StateMonitor.signal m
  end.

Inductive Action := AMutate (c : MonCall) | ATick | AWork.

Definition with_pc (w : World) (pc : PC) : World :=
  mkWorld (w_ratelimit w) (w_mon w) pc (w_lastUpdate w) (w_now w) (w_sent w).

Definition clear_event (m : Monitor) : Monitor :=
  mkMonitor (m_state m) (m_jobData m) (m_gcodeData m) (m_sdUploadData m) (m_currentZ m) (m_progress m) false.

(** One statement of the worker; [None] when it is blocked. *)
Definition work (w : World) : option World :=
  match w_pc w with
  | Waiting =>
      if m_changeEvent (w_mon w) then
        let delta := w_now w - w_lastUpdate w in
        let additionalWaitTime := w_ratelimit w - delta in
        if 0 <? additionalWaitTime
        then Some (with_pc w (Sleeping (w_now w + additionalWaitTime)))
        else Some (with_pc w Capturing)
      else None
  | Sleeping u => if u <=? w_now w then Some (with_pc w Capturing) else None
  | Capturing => Some (with_pc w (Delivering (StateMonitor.getCurrentData (w_mon w))))
  | Delivering d =>
      Some (mkWorld (w_ratelimit w) (w_mon w) Stamping (w_lastUpdate w) (w_now w)
                    (w_sent w ++ [(w_now w, d)]))
  | Stamping =>
      Some (mkWorld (w_ratelimit w) (w_mon w) Clearing (w_now w) (w_now w) (w_sent w))
  | Clearing =>
      Some (mkWorld (w_ratelimit w) (clear_event (w_mon w)) Waiting (w_lastUpdate w)
                    (w_now w) (w_sent w))
  end.

Definition step (w : World) (a : Action) : World :=
  match a with
  | AMutate c =>
      mkWorld (w_ratelimit w) (apply_call (w_mon w) c) (w_pc w) (w_lastUpdate w) (w_now w) (w_sent w)
  | ATick =>
      mkWorld (w_ratelimit w) (w_mon w) (w_pc w) (w_lastUpdate w) (w_now w + 1) (w_sent w)
  | AWork => match work w with Some w' => w' | None => w end
  end.

Definition run (w : World) (acts : list Action) : World := fold_left step acts w.




End Broadcaster.

(** ** Inputs used by the examples below *)
Module Scenario.
Import Printer.

Definition nl : string := String "010"%char EmptyString.

(** The lines [G1 X1], [;TYPE:WALL-OUTER], [G1 X2 ; comment], three blanks,
    [G1 X3], newline-separated. *)
Definition loader_file : string :=
  ("G1 X1" ++ nl ++ ";TYPE:WALL-OUTER" ++ nl ++ "G1 X2 ; comment" ++ nl ++ "   " ++ nl ++ "G1 X3")%string.

Definition no_file_data (_ : string) : option (option Q * option Q) := None.

Definition comm_operational : Comm := mkComm true false false false false true false "Operational".
Definition comm_printing : Comm := mkComm true true false false false true false "Printing".

Definition offline : Printer := init no_file_data true.
Definition connected : Printer := connect offline comm_operational.

(** A job loaded from [/tmp/cube.gcode], with progress left over from an
    earlier [mcProgress]. *)
Definition loaded_with_progress : Printer :=
  setProgressData (gcodeLoaderRun (loadGcode connected "/tmp/cube.gcode" false) "G1 X1")
                  (Some (1#2)) (Some 7%nat) (Some (60#1)) (Some (2#1)).

(** A G-code load started, an SD file selected and confirmed by the
    Communicator while it runs, then the load completes. *)
Definition load_then_sd_select : Res Printer :=
  let p1 := loadGcode connected "/tmp/cube.gcode" false in
  let p2 := selectSdFile p1 "CUBE.GCO" false in
  p3 <- mcSdSelected p2 "CUBE.GCO" 1024 ;;
  Ok (gcodeLoaderRun p3 "G1 X1").

(** A printer whose log history already holds 300 lines. *)
Definition full_log : Printer :=
  set_hist offline (mkHist (repeat "Recv: ok"%string 300) [] [] [] [] []).





End Scenario.

(** ** Predicates used in the statements *)
Module Obs.

(** The four cases in which [startPrint] returns before doing anything. *)
Definition startPrint_refused (p : Printer) : Prop :=
  p_comm p = None \/
  (exists c, p_comm p = Some c /\ c_operational c = false) \/
  (j_gcodeList (p_job p) = None /\ j_sdFile (p_job p) = None) \/
  (exists c, p_comm p = Some c /\ c_printing c = true).

Definition hist_bounded (h : Hist) : Prop :=
  (length (h_log h) <= 300 /\ length (h_messages h) <= 300 /\
   length (h_actual h) <= 300 /\ length (h_target h) <= 300 /\
   length (h_actualBed h) <= 300 /\ length (h_targetBed h) <= 300)%nat.

(** The Communicator callbacks that append to a history. *)
Inductive HistOp :=
| HLog (line : string)
| HMessage (text : string)
| HTemp (currentTimeUtc : Z) (temp bedTemp targetTemp bedTargetTemp : Q).

Definition apply_hist_op (p : Printer) (op : HistOp) : Printer :=
  match op with
  | HLog l => Printer.addLog p l
  | HMessage m => Printer.addMessage p m
  | HTemp t a b c d => Printer.addTemperatureData p t a b c d
  end.

Import Broadcaster.





End Obs.

(** ** The rest of the [Printer] class

    Besides the Communicator, [Printer] talks to the [gcodeManager] (print
    reports, analysis pause and resume), to the timelapse object and to its
    registered callbacks.  A [Host] wraps the printer with those and keeps one
    ordered trace of every outgoing call.  Errors raised by Python here are
    [AttributeError] on [None] and [ZeroDivisionError]; a raise keeps the
    state reached so far, as Python does. *)
Inductive PyError := PyAttributeError | PyZeroDivisionError.

Inductive Outcome (A : Type) := Done (a : A) | Raised (e : PyError) (a : A).
Arguments Done {A} a.
Arguments Raised {A} e a.

Scheme Equality for ConnState.

Inductive HostCall :=
| HComm (c : CommCall)
| HCommCancelPrint
| HCommSetPause (pause : bool)
| HCommSetFeedrateModifier (label : string) (factor : Q)
| HCommGetSdFiles
| HCommDeleteSdFile (name : string)
| HCommInitSdCard
| HCommReleaseSdCard
| HCommRefreshSdFiles
| HPrintSucceeded (filename : option string)
| HPrintFailed (filename : option string)
| HPauseAnalysis
| HResumeAnalysis
| HPrintjobStarted (timelapse : nat) (filename : option string)
| HPrintjobStopped (timelapse : nat)
| HZChange (timelapse : nat) (oldZ newZ : option Q)
| HSendHistoryData (callback : nat)
| HSendUpdateTrigger (callback : nat) (type : string).

(** Timelapse objects and callbacks are named by numbers. *)
Record Host := mkHost {
  h_printer : Printer;
  h_timelapse : option nat;
  h_callbacks : list nat;
  h_trace : list HostCall
}.

Module Host.
Import Printer.

Definition emit (h : Host) (c : HostCall) : Host :=
  mkHost (h_printer h) (h_timelapse h) (h_callbacks h) (h_trace h ++ [c]).

(** Runs a [Printer] operation; the Communicator calls it appends to
    [p_calls] go to the host trace as well, in order. *)
Definition lift (h : Host) (f : Printer -> Printer) : Host :=
  let p := h_printer h in
  let p' := f p in
  mkHost p' (h_timelapse h) (h_callbacks h)
         (h_trace h ++ map HComm (skipn (length (p_calls p)) (p_calls p'))).

(** [commands] as called from the host: it only raises on its first
    command (the Communicator does not change during the loop), so the
    state on a raise is the one before the call. *)
Definition host_commands (h : Host) (cmds : list string) : Outcome Host :=
  match commands (h_printer h) cmds with
  | Ok p' => Done (lift h (fun _ => p'))
  | Exc _ => Raised PyAttributeError h
  end.

Definition set_state (p : Printer) (s : ConnState) : Printer :=
  mkPrinter (p_fileData p) (p_sdSupport p) (p_comm p) (Some s) (p_job p) (p_status p) (p_hist p)
            (p_mon p) (p_calls p).

(** [_setState] *)
Definition setState (p : Printer) (s : ConnState) : Printer := pushState (set_state p s).

Definition is_state (o : option ConnState) (s : ConnState) : bool :=
  match o with Some x => ConnState_beq x s | None => false end.

(** *** Printer commands *)

Definition togglePausePrint (h : Host) : Host :=
  match p_comm (h_printer h) with
  | None => h
  | Some c => emit h (HCommSetPause (negb (c_paused c)))
  end.

Definition cancelPrint (h : Host) (disableMotorsAndHeater : bool) : Outcome Host :=
  match p_comm (h_printer h) with
  | None => Done h
  | Some _ =>
      let h1 := lift h (fun p => if j_sdPrinting (p_job p)
                                 then upd_job p (fun j => with_sdPrinting j false) else p) in
      let h2 := emit h1 HCommCancelPrint in
      match (if disableMotorsAndHeater then host_commands h2 ["M18 M84"%string]
             else Done h2) with
      | Raised e h3 => Raised e h3
      | Done h3 =>
          let h4 := lift h3 (fun p => setCurrentZ p None) in
          let h5 := lift h4 (fun p => setProgressData p None None None None) in
          match j_filename (p_job (h_printer h5)) with
          | Some f => Done (emit h5 (HPrintFailed (Some f)))
          | None => Done h5
          end
      end
  end.

(** [_feedrateModifierMapping] *)
Definition feedrateModifierMapping (structure : string) : option string :=
  if String.eqb structure "outerWall" then Some "WALL-OUTER"%string
  else if String.eqb structure "innerWall" then Some "WALL_INNER"%string
  else if String.eqb structure "fill" then Some "FILL"%string
  else if String.eqb structure "support" then Some "SUPPORT"%string
  else None.

Definition setFeedrateModifier (h : Host) (structure : string) (percentage : Q) : Outcome Host :=
  match feedrateModifierMapping structure with
  | None => Done h
  | Some label =>
      if negb (Qle_bool 0 percentage) then Done h else
      match p_comm (h_printer h) with
      | None => Raised PyAttributeError h
      | Some _ => Done (emit h (HCommSetFeedrateModifier label (percentage / 100)))
      end
  end.

Definition setTimelapse (h : Host) (timelapse : option nat) : Host :=
  let h1 := match h_timelapse h with
            | Some t => if isPrinting (h_printer h) then emit h (HPrintjobStopped t) else h
            | None => h
            end in
  mkHost (h_printer h1) timelapse (h_callbacks h1) (h_trace h1).

Definition disconnect (h : Host) : Host := lift h Printer.disconnect.

(** *** Callbacks triggered from the Communicator *)

Definition mcStateChange (h : Host) (state : ConnState) : Outcome Host :=
  let p := h_printer h in
  let oldState := p_state p in
  let filename := j_filename (p_job p) in
  let h1 :=
    match h_timelapse h with
    | None => Done h
    | Some t =>
        match p_comm p with
        | None => Raised PyAttributeError h
        | Some _ =>
            if is_state oldState STATE_PRINTING && negb (ConnState_beq state STATE_PAUSED)
            then Done (emit h (HPrintjobStopped t))
            else if ConnState_beq state STATE_PRINTING && negb (is_state oldState STATE_PAUSED)
            then Done (emit h (HPrintjobStarted t filename))
            else Done h
        end
    end in
  match h1 with
  | Raised e h1 => Raised e h1
  | Done h1 =>
      let h2 :=
        match p_comm p with
        | None => h1
        | Some _ =>
            if is_state oldState STATE_PRINTING then
              let h' := match state with
                        | STATE_OPERATIONAL => emit h1 (HPrintSucceeded filename)
                        | STATE_CLOSED | STATE_ERROR | STATE_CLOSED_WITH_ERROR =>
                            emit h1 (HPrintFailed filename)
                        | _ => h1
                        end in
              emit h' HResumeAnalysis
            else if ConnState_beq state STATE_PRINTING then emit h1 HPauseAnalysis
            else h1
        end in
      Done (lift h2 (fun q => setState q state))
  end.

(** The Communicator's [getSdProgress()], [getPrintPos()], [getPrintTime()] and
    [getPrintTimeRemainingEstimate()] are the arguments. *)
Definition mcProgress (h : Host) (filePos fileSize printPos : nat) (printTime printTimeLeft : option Q)
  : Outcome Host :=
  let p := h_printer h in
  match p_comm p with
  | None => Raised PyAttributeError h
  | Some _ =>
      if j_sdPrinting (p_job p) then
        let newProgress := if (0 <? fileSize)%nat
                           then GcodeLoader.fraction filePos fileSize else 0%Q in
        Done (lift h (fun q => setProgressData q (Some newProgress) None printTime printTimeLeft))
      else
        match j_gcodeList (p_job p) with
        | Some [] => Raised PyZeroDivisionError h
        | Some l => Done (lift h (fun q => setProgressData q
                         (Some (GcodeLoader.fraction printPos (length l))) (Some printPos)
                         printTime printTimeLeft))
        | None => Done (lift h (fun q => setProgressData q (Some 0%Q) (Some printPos)
                         printTime printTimeLeft))
        end
  end.

Definition mcZChange (h : Host) (newZ : Q) : Host :=
  let oldZ := s_currentZ (p_status (h_printer h)) in
  let h1 := match h_timelapse h with
            | Some t => emit h (HZChange t oldZ (Some newZ))
            | None => h
            end in
  lift h1 (fun p => setCurrentZ p (Some newZ)).

Definition mcSdFiles (h : Host) : Host :=
  fold_left (fun h' cb => emit h' (HSendUpdateTrigger cb "gcodeFiles"%string)) (h_callbacks h) h.

Definition mcSdPrintingDone (h : Host) (printTime printTimeLeft : option Q) : Outcome Host :=
  let h1 := lift h (fun p => upd_job p (fun j => with_sdPrinting j false)) in
  match p_comm (h_printer h1) with
  | None => Raised PyAttributeError h1
  | Some _ =>
      Done (lift h1 (fun p =>
        let p2 := setProgressData p (Some 1%Q) None printTime printTimeLeft in
        pushState p2))
  end.

(** *** SD card handling *)

Definition getSdFiles (h : Host) : Host :=
  match p_comm (h_printer h) with None => h | Some _ => emit h HCommGetSdFiles end.

Definition deleteSdFile (h : Host) (filename : string) : Host :=
  match p_comm (h_printer h) with
  | None => h
  | Some _ =>
      let h1 := lift h (fun p => match j_sdFile (p_job p) with
                                 | Some f => if String.eqb f filename
                                             then upd_job p (fun j => with_sdFile j None) else p
                                 | None => p
                                 end) in
      emit h1 (HCommDeleteSdFile filename)
  end.

Definition initSdCard (h : Host) : Host :=
  match p_comm (h_printer h) with None => h | Some _ => emit h HCommInitSdCard end.
Definition releaseSdCard (h : Host) : Host :=
  match p_comm (h_printer h) with None => h | Some _ => emit h HCommReleaseSdCard end.
Definition refreshSdFiles (h : Host) : Host :=
  match p_comm (h_printer h) with None => h | Some _ => emit h HCommRefreshSdFiles end.

(** *** Callback registration *)

(** [list.remove]: drops the first occurrence. *)
Fixpoint remove_first (x : nat) (l : list nat) : list nat :=
  match l with
  | [] => []
  | y :: r => if Nat.eqb x y then r else y :: remove_first x r
  end.

(** [registerCallback]: append, then send the history payload to the new
    callback only ([_sendInitialStateUpdate] swallows its errors). *)
Definition registerCallback (h : Host) (cb : nat) : Host :=
  emit (mkHost (h_printer h) (h_timelapse h) (h_callbacks h ++ [cb]) (h_trace h))
       (HSendHistoryData cb).

Definition unregisterCallback (h : Host) (cb : nat) : Host :=
  if existsb (Nat.eqb cb) (h_callbacks h)
  then mkHost (h_printer h) (h_timelapse h) (remove_first cb (h_callbacks h)) (h_trace h)
  else h.

End Host.

(** The commands a [GcodeLoader] entry carries, with the segment label dropped. *)
Definition entry_cmd (e : GcodeEntry) : string :=
  match e with Bare c => c | Typed c _ => c end.

(** A line after comment stripping and trimming, as both workers compute it. *)
Definition clean_line (line0 : string) : string :=
  Py.strip (if Py.contains ";"%char line0 then Py.take (Py.find ";"%char line0) line0 else line0).

(** What [file.tell()] reports after each line of [lines] handed out, starting
    at position [pos] with [rd] bytes read: the values both workers divide by
    the file size. *)
Fixpoint line_tells (pos rd size : nat) (lines : list string) : list nat :=
  match lines with
  | [] => []
  | l :: r =>
      let e := (pos + String.length l)%nat in
      let rd' := Py.next_line_tell pos rd e size in
      rd' :: line_tells e rd' size r
  end.

(** The lines an SD streamer event sends, and the progress it reports. *)
Definition sent_of (e : SdStreamer.Event) : list string :=
  match e with SdStreamer.ESend l => [l] | _ => [] end.
Definition progress_of (e : SdStreamer.Event) : list Q :=
  match e with SdStreamer.EProgress _ q => [q] | _ => [] end.

(** Hosts used by the examples: connected to an operational printer, with
    no timelapse and no callbacks. *)
Definition connected_host : Host := mkHost Scenario.connected None [] [].

(** A host whose Communicator is printing, with the printer in
    [STATE_PRINTING] and a timelapse installed. *)
Definition printing_host : Host :=
  mkHost (Host.setState (Printer.connect Scenario.offline Scenario.comm_printing) STATE_PRINTING)
         (Some 1%nat) [] [].



(** * Properties *)

(** ** String lemmas *)

Lemma rfind_ge (c : ascii) (s : string) : -1 <= Py.rfind c s.
Proof.
  induction s as [|d r IH]; simpl; [lia|].
  destruct (0 <=? Py.rfind c r) eqn:E; [apply Z.leb_le in E; lia|].
  destruct (Ascii.eqb c d); lia.
Qed.

Lemma rfind_absent (c : ascii) (s : string) :
  ~ In c (list_ascii_of_string s) -> Py.rfind c s = -1.
Proof.
  induction s as [|d r IH]; simpl; intros Hn; [reflexivity|].
  rewrite IH by tauto. simpl.
  destruct (Ascii.eqb_spec c d); [subst; tauto | reflexivity].
Qed.

Lemma rfind_app (c : ascii) (s1 s2 : string) :
  Py.rfind c (s1 ++ s2) =
  if 0 <=? Py.rfind c s2 then Z.of_nat (String.length s1) + Py.rfind c s2 else Py.rfind c s1.
Proof.
  induction s1 as [|d r IH].
  - simpl. pose proof (rfind_ge c s2).
    destruct (0 <=? Py.rfind c s2) eqn:E; [lia|]. apply Z.leb_gt in E. lia.
  - cbn [String.append Py.rfind]. rewrite IH. destruct (0 <=? Py.rfind c s2) eqn:E.
    + apply Z.leb_le in E.
      replace (0 <=? Z.of_nat (String.length r) + Py.rfind c s2) with true
        by (symmetry; apply Z.leb_le; lia).
      cbn [String.length]. lia.
    + reflexivity.
Qed.

Lemma str_length_append (s1 s2 : string) :
  String.length (s1 ++ s2) = (String.length s1 + String.length s2)%nat.
Proof. induction s1 as [|d r IH]; simpl; [reflexivity | now rewrite IH]. Qed.

Lemma substring_app_length (s1 s2 : string) :
  substring 0 (String.length s1) (s1 ++ s2) = s1.
Proof.
  induction s1 as [|d r IH]; simpl; [destruct s2; reflexivity | now rewrite IH].
Qed.

Lemma substring_min (n : nat) (s : string) :
  substring 0 (Nat.min n (String.length s)) s = substring 0 n s.
Proof.
  revert n; induction s as [|d r IH]; intros [|n]; simpl; try reflexivity.
  now rewrite IH.
Qed.

Lemma take_nonneg (i : Z) (s : string) :
  0 <= i -> Py.take i s = substring 0 (Nat.min (Z.to_nat i) (String.length s)) s.
Proof.
  intros Hi. unfold Py.take.
  replace (i <? 0) with false by (symmetry; apply Z.ltb_ge; lia).
  f_equal. lia.
Qed.

(** ** Bounded histories *)

Lemma cap300_length {A} (l : list A) : (length (Printer.cap300 l) <= 300)%nat.
Proof. unfold Printer.cap300. rewrite length_skipn. lia. Qed.

Lemma cap300_full {A} (l : list A) (x : A) :
  length l = 300%nat -> Printer.cap300 (l ++ [x]) = tl l ++ [x].
Proof.
  intros H. unfold Printer.cap300. rewrite length_app. cbn [length].
  replace (length l + 1 - 300)%nat with 1%nat by lia.
  destruct l as [|y l]; [discriminate | reflexivity].
Qed.

Lemma apply_hist_op_bounded (p : Printer) (op : Obs.HistOp) :
  Obs.hist_bounded (p_hist p) -> Obs.hist_bounded (p_hist (Obs.apply_hist_op p op)).
Proof.
  unfold Obs.hist_bounded.
  destruct op; cbn; intuition (apply cap300_length).
Qed.

Lemma run_hist_bounded (ops : list Obs.HistOp) (p : Printer) :
  Obs.hist_bounded (p_hist p) ->
  Obs.hist_bounded (p_hist (fold_left Obs.apply_hist_op ops p)).
Proof.
  revert p; induction ops as [|op ops IH]; intros p H; [exact H|].
  cbn. apply IH. now apply apply_hist_op_bounded.
Qed.

(** ** SD streamer *)

Definition no_finish (l : list SdStreamer.Event) : Prop :=
  Forall (fun e => SdStreamer.is_finish e = false) l.

Lemma stream_lines_no_finish sd lines i pos rd size raises :
  no_finish (fst (SdStreamer.stream_lines sd lines i pos rd size raises)).
Proof.
  unfold no_finish. revert i pos rd.
  induction lines as [|l0 rest IH]; intros i pos rd; cbn -[Py.next_line_tell]; [constructor|].
  destruct (raises (SdStreamer.OpRead i)); cbn -[Py.next_line_tell]; [constructor|].
  set (line := Py.strip _).
  set (rd' := Py.next_line_tell _ _ _ _).
  specialize (IH (S i) (pos + String.length l0)%nat rd').
  destruct (SdStreamer.stream_lines sd rest (S i) (pos + String.length l0) rd' size raises)
    as [tr r] eqn:E; cbn in IH.
  destruct (String.length line); cbn;
    [| destruct (raises (SdStreamer.OpSend i)); cbn; [repeat constructor|] ];
    destruct (raises (SdStreamer.OpProgress i)); cbn;
    repeat constructor; assumption.
Qed.

Lemma body_no_finish sd contents raises :
  no_finish (fst (SdStreamer.body sd contents raises)).
Proof.
  unfold SdStreamer.body.
  destruct (raises SdStreamer.OpStat); [constructor|].
  destruct (raises SdStreamer.OpOpen); [constructor|].
  destruct (raises SdStreamer.OpStart); [repeat constructor|].
  pose proof (stream_lines_no_finish sd (Py.file_lines contents) 0 0 0 (String.length contents) raises).
  destruct (SdStreamer.stream_lines _ _ _ _ _ _ _) as [tr r]. cbn in *.
  constructor; [reflexivity | assumption].
Qed.

Lemma apply_event_loader (p : Printer) (e : SdStreamer.Event) :
  j_gcodeLoader (p_job (SdStreamer.apply_event p e)) = j_gcodeLoader (p_job p).
Proof. destruct e; reflexivity. Qed.

Lemma fold_apply_event_loader (tr : list SdStreamer.Event) (p : Printer) :
  j_gcodeLoader (p_job (fold_left SdStreamer.apply_event tr p)) = j_gcodeLoader (p_job p).
Proof.
  revert p; induction tr as [|e tr IH]; intros p; [reflexivity|].
  cbn. rewrite IH. apply apply_event_loader.
Qed.

(** ** Broadcaster *)

Section BroadcasterFacts.
Import Broadcaster.



















End BroadcasterFacts.

(** ** Observer fan-out *)

Lemma for_each_try_pass (obs : list Registry.Observer) (ev : Registry.Event) :
  Registry.for_each obs (fun o => Registry.try_except_pass (Registry.invoke o ev)) =
  (map (fun o => (Registry.ob_id o, ev)) obs, Ok tt).
Proof.
  induction obs as [|o rest IH]; [reflexivity|].
  cbn [Registry.for_each map]. rewrite IH.
  unfold Registry.try_except_pass, Registry.invoke.
  destruct ev as [d|d|d|d|d];
    [ destruct (Registry.ob_addTemperature o d)
    | destruct (Registry.ob_addLog o d)
    | destruct (Registry.ob_addMessage o d)
    | destruct (Registry.ob_sendCurrentData o d)
    | destruct (Registry.ob_sendUpdateTrigger o d) ]; reflexivity.
Qed.

(** ** Claims *)

(** C4: on the file with lines [G1 X1], [;TYPE:WALL-OUTER], [G1 X2 ; comment],
    a whitespace-only line and [G1 X3], the [GcodeLoader] builds exactly
    [M110 N0], bare [G1 X1], [G1 X2] paired with segment label [WALL-OUTER] and
    bare [G1 X3], and the last progress fraction it reports equals 1. *)
Theorem gcode_loader_example :
  fst (GcodeLoader.run Scenario.loader_file) =
    [Bare "M110 N0"; Bare "G1 X1"; Typed "G1 X2" "WALL-OUTER"; Bare "G1 X3"] /\
  snd (GcodeLoader.run Scenario.loader_file) <> [] /\
  List.last (snd (GcodeLoader.run Scenario.loader_file)) 0%Q == 1%Q.
Proof.
  vm_compute. split; [reflexivity|]. split; [discriminate | reflexivity].
Qed.

(** C5: for every observer list and every event of the five kinds, each
    [_send*Callbacks] invokes every registered observer in list order, whatever
    the observers' handlers raise, and returns normally. *)
Theorem dispatch_isolates_failures :
  forall (obs : list Registry.Observer) (t : TempSample) (s : string) (d : Snapshot),
    Registry.sendAddTemperatureCallbacks obs t =
      (map (fun o => (Registry.ob_id o, Registry.EvTemperature t)) obs, Ok tt) /\
    Registry.sendAddLogCallbacks obs s =
      (map (fun o => (Registry.ob_id o, Registry.EvLog s)) obs, Ok tt) /\
    Registry.sendAddMessageCallbacks obs s =
      (map (fun o => (Registry.ob_id o, Registry.EvMessage s)) obs, Ok tt) /\
    Registry.sendCurrentDataCallbacks obs d =
      (map (fun o => (Registry.ob_id o, Registry.EvCurrentData d)) obs, Ok tt) /\
    Registry.sendTriggerUpdateCallbacks obs s =
      (map (fun o => (Registry.ob_id o, Registry.EvUpdateTrigger s)) obs, Ok tt).
Proof.
  intros obs t s d.
  repeat split; apply for_each_try_pass.
Qed.

(** C6 (as the code has it): for a local name [stem.ext] whose extension has no
    dot, the device name is the first 8 characters of [stem], case unchanged,
    followed by [.GCO]; [my_long_model.gcode] gives [my_long_.GCO]. *)
Theorem sd_filename_stem8 :
  (forall stem ext : string,
      ~ In "."%char (list_ascii_of_string ext) ->
      sd_filename (stem ++ String "."%char ext) = (substring 0 8 stem ++ ".GCO")%string) /\
  sd_filename "my_long_model.gcode" = "my_long_.GCO"%string.
Proof.
  split; [|reflexivity].
  intros stem ext Hext. unfold sd_filename.
  rewrite rfind_app. cbn [Py.rfind]. rewrite (rfind_absent _ _ Hext).
  cbn -[Py.take]. rewrite Z.add_0_r.
  rewrite (take_nonneg (Z.of_nat (String.length stem))) by lia.
  rewrite Nat2Z.id, str_length_append. cbn [String.length].
  replace (Nat.min (String.length stem) (String.length stem + S (String.length ext)))
    with (String.length stem) by lia.
  rewrite substring_app_length.
  rewrite take_nonneg by lia. rewrite substring_min. reflexivity.
Qed.

Lemma sd_filename_stem8_witness :
  ~ In "."%char (list_ascii_of_string "gcode") /\
  sd_filename ("my_long_model" ++ String "."%char "gcode") = (substring 0 8 "my_long_model" ++ ".GCO")%string.
Proof.
  split; [simpl; intuition discriminate|].
  apply (proj1 sd_filename_stem8). simpl. intuition discriminate.
Defined.

(** C6 fails as stated: the name is not uppercased and keeps 8 stem characters. *)
Lemma sd_filename_not_uppercased :
  sd_filename "my_long_model.gcode" <> "MY_LONG_M.GCO"%string.
Proof. vm_compute. discriminate. Qed.

(** C8: while the Communicator reports printing or a [GcodeLoader] is active,
    [loadGcode] returns the printer unchanged: no new loader, same loader
    target and callback, same SD selection and job data. *)
Theorem loadGcode_guard :
  forall (p : Printer) (file : string) (printAfterLoading : bool),
    Printer.isPrinting p = true \/ j_gcodeLoader (p_job p) <> None ->
    Printer.loadGcode p file printAfterLoading = p.
Proof.
  intros p file pal H. unfold Printer.loadGcode.
  destruct (Printer.isPrinting p) eqn:Hp; [reflexivity|].
  destruct (j_gcodeLoader (p_job p)) eqn:Hl; [reflexivity|].
  destruct H as [H|H]; [discriminate | congruence].
Qed.

Lemma loadGcode_guard_witness :
  (Printer.isPrinting (Printer.connect Scenario.offline Scenario.comm_printing) = true \/
   j_gcodeLoader (p_job (Printer.connect Scenario.offline Scenario.comm_printing)) <> None) /\
  Printer.loadGcode (Printer.connect Scenario.offline Scenario.comm_printing) "/tmp/b.gcode" true =
  Printer.connect Scenario.offline Scenario.comm_printing.
Proof.
  split; [left; reflexivity|].
  apply loadGcode_guard. left. reflexivity.
Defined.

(** C9 (defect): with no Communicator, [commands] on a non-empty list raises
    [AttributeError] on [None.sendCommand]. *)
Theorem commands_offline_raises :
  Printer.commands Scenario.offline ["G28"%string] = Exc AttributeError.
Proof. reflexivity. Qed.

(** C1 (as the code has it): [startPrint] leaves the printer unchanged when
    there is no Communicator, it is not operational, neither a command list
    nor an SD file is set, or it is printing.  Otherwise it clears CurrentZ,
    keeps the progress data as they were, and either sets the SD-printing flag
    and calls [printSdFile] (SD file selected) or calls [printGCode] with the
    loaded list. *)
Theorem startPrint_contract :
  forall p : Printer,
    (Obs.startPrint_refused p -> Printer.startPrint p = p) /\
    (forall c, p_comm p = Some c -> c_operational c = true -> c_printing c = false ->
       j_gcodeList (p_job p) <> None \/ j_sdFile (p_job p) <> None ->
       let q := Printer.startPrint p in
       s_currentZ (p_status q) = None /\ m_currentZ (p_mon q) = None /\
       s_progress (p_status q) = s_progress (p_status p) /\
       s_printTime (p_status q) = s_printTime (p_status p) /\
       s_printTimeLeft (p_status q) = s_printTimeLeft (p_status p) /\
       m_progress (p_mon q) = m_progress (p_mon p) /\
       j_gcodeList (p_job q) = j_gcodeList (p_job p) /\
       j_sdFile (p_job q) = j_sdFile (p_job p) /\
       match j_sdFile (p_job p) with
       | Some _ => j_sdPrinting (p_job q) = true /\ p_calls q = p_calls p ++ [CPrintSdFile]
       | None => exists l, j_gcodeList (p_job p) = Some l /\
                   j_sdPrinting (p_job q) = j_sdPrinting (p_job p) /\
                   p_calls q = p_calls p ++ [CPrintGCode l]
       end).
Proof.
  intros [fd sds comm st [gl fn ld sdp sdf sds' pas] stat hist mon calls]. split.
  - unfold Obs.startPrint_refused, Printer.startPrint; cbn.
    intros [H|[[c [H1 H2]]|[[H1 H2]|[c [H1 H2]]]]]; subst; try reflexivity.
    + rewrite H2. reflexivity.
    + destruct comm; [destruct (negb (c_operational c)); reflexivity | reflexivity].
    + rewrite H2. destruct (negb (c_operational c)); [reflexivity|].
      destruct gl, sdf; reflexivity.
  - intros c Hc Ho Hp Hj. cbn in Hc, Hj |- *. subst comm.
    unfold Printer.startPrint; cbn. rewrite Ho, Hp. cbn.
    destruct sdf as [f|], gl as [l|]; cbn; try (destruct Hj as [H|H]; congruence).
    + repeat split.
    + repeat split.
    + do 8 (split; [reflexivity|]). exists l. repeat split.
Qed.

Lemma startPrint_contract_witness :
  Printer.startPrint Scenario.offline = Scenario.offline /\
  p_calls (Printer.startPrint Scenario.loaded_with_progress) =
    p_calls Scenario.loaded_with_progress ++ [CPrintGCode [Bare "M110 N0"; Bare "G1 X1"]].
Proof.
  split.
  - apply (proj1 (startPrint_contract Scenario.offline)). left. reflexivity.
  - assert (Hc : p_comm Scenario.loaded_with_progress = Some Scenario.comm_operational)
      by (vm_compute; reflexivity).
    assert (Hj : j_gcodeList (p_job Scenario.loaded_with_progress) <> None \/
                 j_sdFile (p_job Scenario.loaded_with_progress) <> None)
      by (left; vm_compute; discriminate).
    destruct (proj2 (startPrint_contract Scenario.loaded_with_progress) Scenario.comm_operational
                Hc eq_refl eq_refl Hj)
      as (_ & _ & _ & _ & _ & _ & _ & _ & Hm).
    assert (Hs : j_sdFile (p_job Scenario.loaded_with_progress) = None) by (vm_compute; reflexivity).
    rewrite Hs in Hm. destruct Hm as (l & Hl & _ & Hcalls).
    rewrite Hcalls. vm_compute in Hl. injection Hl as <-. reflexivity.
Defined.

(** C1 fails as stated: with every precondition met, [startPrint] does not
    reset the progress data (here a fraction of 1/2 left by [mcProgress]). *)
Lemma startPrint_keeps_progress :
  p_comm Scenario.loaded_with_progress = Some Scenario.comm_operational /\
  j_gcodeList (p_job Scenario.loaded_with_progress) <> None /\
  s_progress (p_status (Printer.startPrint Scenario.loaded_with_progress)) = Some (1#2) /\
  m_progress (p_mon (Printer.startPrint Scenario.loaded_with_progress)) <>
    Some (mkProgressData None None None None).
Proof. vm_compute. repeat split; discriminate. Qed.

(** C3: from the initial printer, after any sequence of log, message and
    temperature appends, each of the six histories holds at most 300 entries;
    an append to a history holding 300 entries drops exactly its oldest entry
    and keeps the others in order, the new entry last. *)
Theorem histories_capped_300 :
  (forall fd sds (ops : list Obs.HistOp),
      Obs.hist_bounded (p_hist (fold_left Obs.apply_hist_op ops (Printer.init fd sds)))) /\
  (forall (p : Printer) (line : string),
      length (h_log (p_hist p)) = 300%nat ->
      h_log (p_hist (Printer.addLog p line)) = tl (h_log (p_hist p)) ++ [line]) /\
  (forall (p : Printer) (msg : string),
      length (h_messages (p_hist p)) = 300%nat ->
      h_messages (p_hist (Printer.addMessage p msg)) = tl (h_messages (p_hist p)) ++ [msg]) /\
  (forall (p : Printer) (t : Z) (temp bedTemp targetTemp bedTargetTemp : Q),
      let h := p_hist p in
      let h' := p_hist (Printer.addTemperatureData p t temp bedTemp targetTemp bedTargetTemp) in
      (length (h_actual h) = 300%nat -> h_actual h' = tl (h_actual h) ++ [(t, temp)]) /\
      (length (h_target h) = 300%nat -> h_target h' = tl (h_target h) ++ [(t, targetTemp)]) /\
      (length (h_actualBed h) = 300%nat -> h_actualBed h' = tl (h_actualBed h) ++ [(t, bedTemp)]) /\
      (length (h_targetBed h) = 300%nat ->
         h_targetBed h' = tl (h_targetBed h) ++ [(t, bedTargetTemp)])).
Proof.
  split; [|split; [|split]].
  - intros fd sds ops. apply run_hist_bounded.
    unfold Obs.hist_bounded; cbn. lia.
  - intros p line H. cbn. now apply cap300_full.
  - intros p msg H. cbn. now apply cap300_full.
  - intros p t a b c d. cbn.
    repeat split; intros H; now apply cap300_full.
Qed.

Lemma histories_capped_300_witness :
  length (h_log (p_hist Scenario.full_log)) = 300%nat /\
  h_log (p_hist (Printer.addLog Scenario.full_log "Send: M105"%string)) =
    tl (h_log (p_hist Scenario.full_log)) ++ ["Send: M105"%string].
Proof.
  assert (H : length (h_log (p_hist Scenario.full_log)) = 300%nat) by (vm_compute; reflexivity).
  split; [exact H|].
  apply (proj1 (proj2 histories_capped_300)). exact H.
Defined.

(** C7 (as the code has it): a streamer run that passes the busy check ends,
    whether its body completes or raises anywhere, by closing the transfer
    session and then invoking the finish-callback exactly once with the derived
    device name, provided the closing call itself returns; the body's outcome
    is what the run ends with, and the orchestrator's streamer reference is
    cleared, so [isLoading] only reflects a [GcodeLoader].  A run that finds
    the Communicator busy returns at once: no call is made (no session opened
    or closed, no finish-callback), and the orchestrator keeps its streamer
    reference. *)
Theorem sd_streamer_finally :
  forall (p : Printer) (c : Comm) (filename file contents : string)
         (raises : SdStreamer.Op -> bool),
    p_comm p = Some c ->
    raises SdStreamer.OpEnd = false ->
    let sd := sd_filename filename in
    let tr := fst (SdStreamer.run false filename contents raises) in
    (exists pre, tr = pre ++ [SdStreamer.EEnd sd; SdStreamer.EFinish sd] /\ no_finish pre) /\
    snd (SdStreamer.run false filename contents raises) = snd (SdStreamer.body sd contents raises) /\
    let p2 := fst (Printer2.sdStreamerRun (Printer2.addSdFile p filename file) false contents raises) in
    j_sdStreamer (p_job p2) = None /\
    Printer.isLoading p2 = match j_gcodeLoader (p_job p) with Some _ => true | None => false end /\
    SdStreamer.run true filename contents raises = ([], Ok tt) /\
    Printer2.sdStreamerRun (Printer2.addSdFile p filename file) true contents raises =
      (Printer2.addSdFile p filename file, Ok tt) /\
    Printer.isLoading (Printer2.addSdFile p filename file) = true.
Proof.
  intros p c filename file contents raises Hc Hend sd tr.
  assert (Hrun : SdStreamer.run false filename contents raises =
                 (fst (SdStreamer.body sd contents raises) ++ [SdStreamer.EEnd sd; SdStreamer.EFinish sd],
                  snd (SdStreamer.body sd contents raises))).
  { unfold SdStreamer.run. fold sd. destruct (SdStreamer.body sd contents raises). now rewrite Hend. }
  split; [|split].
  - exists (fst (SdStreamer.body sd contents raises)). split.
    + unfold tr. now rewrite Hrun.
    + apply body_no_finish.
  - now rewrite Hrun.
  - unfold Printer2.sdStreamerRun, Printer2.addSdFile. rewrite Hc. cbn -[SdStreamer.run].
    rewrite Hrun. cbn -[SdStreamer.body]. rewrite fold_left_app. cbn -[SdStreamer.body].
    split; [reflexivity|].
    unfold Printer.isLoading. cbn -[SdStreamer.body].
    rewrite fold_apply_event_loader. cbn.
    split; [destruct (j_gcodeLoader (p_job p)); reflexivity|].
    split; [reflexivity|].
    split; [reflexivity|].
    unfold Printer.isLoading. cbn. destruct (j_gcodeLoader (p_job p)); reflexivity.
Qed.

Lemma sd_streamer_finally_witness :
  p_comm Scenario.connected = Some Scenario.comm_operational /\
  j_sdStreamer (p_job (fst (Printer2.sdStreamerRun
     (Printer2.addSdFile Scenario.connected "cube.gcode" "/tmp/cube.gcode") false "G1 X1"
     (fun op => match op with SdStreamer.OpSend _ => true | _ => false end)))) = None.
Proof.
  assert (Hc : p_comm Scenario.connected = Some Scenario.comm_operational) by (vm_compute; reflexivity).
  split; [exact Hc|].
  exact (proj1 (proj2 (proj2 (sd_streamer_finally Scenario.connected Scenario.comm_operational
           "cube.gcode" "/tmp/cube.gcode" "G1 X1"
           (fun op => match op with SdStreamer.OpSend _ => true | _ => false end) Hc eq_refl)))).
Defined.

(** C7 fails as stated: when the Communicator is busy the run returns before
    its [try] block, with no session closed and no finish-callback (and the
    orchestrator keeps its streamer reference); and when closing the session
    raises, the finish-callback is skipped. *)
Lemma sd_streamer_busy_no_finish :
  fst (SdStreamer.run true "cube.gcode" "G1 X1" (fun _ => false)) = [] /\
  Printer.isLoading (fst (Printer2.sdStreamerRun
     (Printer2.addSdFile Scenario.connected "cube.gcode" "/tmp/cube.gcode") true "G1 X1"
     (fun _ => false))) = true /\
  filter SdStreamer.is_finish
    (fst (SdStreamer.run false "cube.gcode" "G1 X1"
            (fun op => match op with SdStreamer.OpEnd => true | _ => false end))) = [].
Proof. vm_compute. repeat split. Qed.

(** C10 (defect): a G-code load started, an SD file selected and confirmed
    while it runs, then the load completing, leaves both a command list and an
    SD file set, and the printer reports ready. *)
Theorem load_then_sd_select_both_set :
  match Scenario.load_then_sd_select with
  | Ok p => j_gcodeList (p_job p) = Some [Bare "M110 N0"; Bare "G1 X1"] /\
            j_sdFile (p_job p) = Some "CUBE.GCO"%string /\
            Printer.isReady p = true
  | Exc _ => False
  end.
Proof. vm_compute. repeat split. Qed.




(** * Further properties of the orchestrator *)

(** ** Helpers *)

Lemma skipn_len_app {A} (l m : list A) : skipn (length l) (l ++ m) = m.
Proof. induction l; simpl; auto. Qed.

Lemma lift_same_calls (h : Host) (f : Printer -> Printer) :
  p_calls (f (h_printer h)) = p_calls (h_printer h) ->
  Host.lift h f = mkHost (f (h_printer h)) (h_timelapse h) (h_callbacks h) (h_trace h).
Proof.
  intros E. unfold Host.lift. rewrite E, skipn_all. simpl. rewrite app_nil_r. reflexivity.
Qed.

Lemma lift_one_call (h : Host) (f : Printer -> Printer) (c : CommCall) :
  p_calls (f (h_printer h)) = p_calls (h_printer h) ++ [c] ->
  Host.lift h f = mkHost (f (h_printer h)) (h_timelapse h) (h_callbacks h) (h_trace h ++ [HComm c]).
Proof.
  intros E. unfold Host.lift. rewrite E, skipn_len_app. reflexivity.
Qed.

Lemma lift_id (h : Host) : Host.lift h (fun p => p) = h.
Proof. rewrite lift_same_calls by reflexivity. destruct h; reflexivity. Qed.

Lemma commands_calls (p : Printer) (c : Comm) (cmds : list string) :
  p_comm p = Some c ->
  exists p', Printer.commands p cmds = Ok p' /\
    p_calls p' = p_calls p ++ map CSendCommand cmds /\
    p' = mkPrinter (p_fileData p) (p_sdSupport p) (p_comm p) (p_state p) (p_job p)
           (p_status p) (p_hist p) (p_mon p) (p_calls p ++ map CSendCommand cmds).
Proof.
  revert p. induction cmds as [|x r IH]; intros p Hc; simpl.
  - exists p. rewrite !app_nil_r. destruct p; repeat split.
  - rewrite Hc. destruct (IH (Printer.call p (CSendCommand x)) Hc) as (p' & E & Ec & Ep).
    exists p'. rewrite E. unfold Printer.call in Ep, Ec. simpl in Ep, Ec.
    rewrite <- app_assoc in Ep, Ec. simpl in Ep, Ec. rewrite Hc in Ep. repeat split; assumption.
Qed.

(** ** Without a Communicator *)

(** Offline (no Communicator), every operation that guards on [self._comm]
    leaves the printer, its collaborators and the call trace untouched:
    pause toggling, cancelling, the SD card operations, SD uploads and
    selections, and starting a print. *)
Theorem host_offline_noops (h : Host) (Hc : p_comm (h_printer h) = None) :
  Host.togglePausePrint h = h /\
  (forall disable, Host.cancelPrint h disable = Done h) /\
  Host.getSdFiles h = h /\
  (forall name, Host.deleteSdFile h name = h) /\
  Host.initSdCard h = h /\ Host.releaseSdCard h = h /\ Host.refreshSdFiles h = h /\
  (forall name after, Host.lift h (fun p => Printer.selectSdFile p name after) = h) /\
  (forall name file, Host.lift h (fun p => Printer2.addSdFile p name file) = h) /\
  Host.lift h Printer.startPrint = h.
Proof.
  unfold Host.togglePausePrint, Host.cancelPrint, Host.getSdFiles, Host.deleteSdFile,
    Host.initSdCard, Host.releaseSdCard, Host.refreshSdFiles.
  rewrite Hc.
  assert (L : forall f : Printer -> Printer, f (h_printer h) = h_printer h -> Host.lift h f = h).
  { intros f E. rewrite lift_same_calls by (rewrite E; reflexivity). rewrite E. destruct h; reflexivity. }
  repeat split; intros; apply L;
    [unfold Printer.selectSdFile | unfold Printer2.addSdFile | unfold Printer.startPrint];
    rewrite Hc; reflexivity.
Qed.

(** Offline, the operations that use [self._comm] without a guard raise
    [AttributeError]: a non-empty [commands], [setFeedrateModifier] with a
    known structure and a non-negative percentage, [mcProgress],
    [mcSdPrintingDone] (after it has already cleared [_sdPrinting]) and,
    when a timelapse is configured, [mcStateChange] (before it records the
    new state). *)
Theorem host_offline_raises (h : Host) (Hc : p_comm (h_printer h) = None) :
  (forall cmds, cmds <> [] -> Host.host_commands h cmds = Raised PyAttributeError h) /\
  (forall s (pct : Q) label, Host.feedrateModifierMapping s = Some label -> (0 <= pct)%Q ->
     Host.setFeedrateModifier h s pct = Raised PyAttributeError h) /\
  (forall fp fs pp pt ptl, Host.mcProgress h fp fs pp pt ptl = Raised PyAttributeError h) /\
  (forall pt ptl, exists h', Host.mcSdPrintingDone h pt ptl = Raised PyAttributeError h' /\
     j_sdPrinting (p_job (h_printer h')) = false /\ h_trace h' = h_trace h) /\
  (forall s t, h_timelapse h = Some t -> Host.mcStateChange h s = Raised PyAttributeError h).
Proof.
  repeat split.
  - intros [|x r] Hne; [congruence|]. unfold Host.host_commands. simpl. rewrite Hc. reflexivity.
  - intros s pct label Hm Hp. unfold Host.setFeedrateModifier. rewrite Hm.
    apply Qle_bool_iff in Hp. rewrite Hp, Hc. reflexivity.
  - intros. unfold Host.mcProgress. rewrite Hc. reflexivity.
  - intros pt ptl. unfold Host.mcSdPrintingDone.
    rewrite lift_same_calls by reflexivity. simpl. rewrite Hc.
    eexists; split; [reflexivity|]. split; reflexivity.
  - intros s t Ht. unfold Host.mcStateChange. rewrite Ht, Hc. reflexivity.
Qed.

Lemma host_offline_noops_witness :
  p_comm (h_printer (mkHost Scenario.offline None [] [])) = None /\
  Host.togglePausePrint (mkHost Scenario.offline None [] []) = mkHost Scenario.offline None [] [].
Proof.
  split; [reflexivity|].
  exact (proj1 (host_offline_noops (mkHost Scenario.offline None [] []) eq_refl)).
Defined.

Lemma host_offline_raises_witness :
  p_comm (h_printer (mkHost Scenario.offline (Some 1%nat) [] [])) = None /\
  Host.mcStateChange (mkHost Scenario.offline (Some 1%nat) [] []) STATE_PRINTING
  = Raised PyAttributeError (mkHost Scenario.offline (Some 1%nat) [] []).
Proof.
  split; [reflexivity|].
  exact (proj2 (proj2 (proj2 (proj2 (host_offline_raises (mkHost Scenario.offline (Some 1%nat) [] [])
           eq_refl)))) STATE_PRINTING 1%nat eq_refl).
Defined.

(** ** Cancelling *)

Ltac host_simpl :=
  unfold Host.lift, Host.emit; cbn -[GcodeLoader.fraction Qle_bool Py.basename];
  rewrite ?skipn_all, ?skipn_len_app, ?app_nil_r; cbn -[GcodeLoader.fraction Qle_bool Py.basename].

(** [cancelPrint] with a Communicator: the Communicator is told to cancel,
    then ["M18 M84"] goes out when [disableMotorsAndHeater] holds, then the
    job archive records a failure when a job file name is set.  Afterwards
    the printer is not SD printing, Z height, progress and print times are
    cleared in the printer and in the state monitor, and the loaded job
    (file name, command list, SD file) is kept. *)
Theorem cancelPrint_resets (h : Host) (c : Comm) (disable : bool)
    (Hc : p_comm (h_printer h) = Some c) :
  exists h', Host.cancelPrint h disable = Done h' /\
    h_trace h' = h_trace h ++ HCommCancelPrint ::
                 (if disable then [HComm (CSendCommand "M18 M84")] else []) ++
                 (match j_filename (p_job (h_printer h)) with
                  | Some f => [HPrintFailed (Some f)] | None => [] end) /\
    j_sdPrinting (p_job (h_printer h')) = false /\
    s_currentZ (p_status (h_printer h')) = None /\
    s_progress (p_status (h_printer h')) = None /\
    s_printTime (p_status (h_printer h')) = None /\
    s_printTimeLeft (p_status (h_printer h')) = None /\
    m_currentZ (p_mon (h_printer h')) = None /\
    m_progress (p_mon (h_printer h')) = Some (mkProgressData None None None None) /\
    p_comm (h_printer h') = Some c /\
    j_filename (p_job (h_printer h')) = j_filename (p_job (h_printer h)) /\
    j_gcodeList (p_job (h_printer h')) = j_gcodeList (p_job (h_printer h)) /\
    j_sdFile (p_job (h_printer h')) = j_sdFile (p_job (h_printer h)).
Proof.
  destruct h as [[fd sd cm st [gl fn ld sdp sdf sds spa] status hist mon calls] tl cbs tr].
  simpl in Hc. subst cm.
  unfold Host.cancelPrint, Host.host_commands.
  destruct disable, sdp, fn; host_simpl; eexists; (split; [reflexivity|]); host_simpl;
    rewrite <- ?app_assoc; repeat split.
Qed.

Lemma cancelPrint_resets_witness :
  p_comm (h_printer connected_host) = Some Scenario.comm_operational /\
  exists h', Host.cancelPrint connected_host true = Done h' /\
    h_trace h' = [HCommCancelPrint; HComm (CSendCommand "M18 M84")].
Proof.
  split; [reflexivity|].
  destruct (cancelPrint_resets connected_host Scenario.comm_operational true eq_refl) as (h' & E & T & _).
  exists h'. split; [exact E|]. rewrite T. reflexivity.
Defined.

(** ** Connection *)

(** [disconnect] closes an existing Communicator (and only then), after which
    the printer reports itself [Offline], not operational, not printing and
    closed-or-error.  It does not touch the state monitor: the last pushed
    state stays there until someone pushes a new one. *)
Theorem disconnect_offline (h : Host) :
  let h' := Host.disconnect h in
  h_trace h' = h_trace h ++ (match p_comm (h_printer h) with
                             | Some _ => [HComm CClose] | None => [] end) /\
  p_comm (h_printer h') = None /\
  Printer.getStateString (h_printer h') = "Offline"%string /\
  Printer.isOperational (h_printer h') = false /\
  Printer.isPrinting (h_printer h') = false /\
  Printer.isClosedOrError (h_printer h') = true /\
  p_mon (h_printer h') = p_mon (h_printer h) /\
  p_job (h_printer h') = p_job (h_printer h).
Proof.
  destruct h as [[fd sd [cm|] st job status hist mon calls] tl cbs tr];
    unfold Host.disconnect, Host.lift, Printer.disconnect; host_simpl; repeat split.
Qed.

(** ** SD card files *)

(** [deleteSdFile] with a Communicator asks it to delete the file and drops
    the SD selection exactly when the deleted name is the selected one;
    the rest of the job is kept. *)
Theorem deleteSdFile_selection (h : Host) (c : Comm) (name : string)
    (Hc : p_comm (h_printer h) = Some c) :
  let h' := Host.deleteSdFile h name in
  h_trace h' = h_trace h ++ [HCommDeleteSdFile name] /\
  (j_sdFile (p_job (h_printer h)) = Some name -> j_sdFile (p_job (h_printer h')) = None) /\
  (j_sdFile (p_job (h_printer h)) <> Some name ->
     j_sdFile (p_job (h_printer h')) = j_sdFile (p_job (h_printer h))) /\
  j_gcodeList (p_job (h_printer h')) = j_gcodeList (p_job (h_printer h)) /\
  j_filename (p_job (h_printer h')) = j_filename (p_job (h_printer h)) /\
  j_sdPrinting (p_job (h_printer h')) = j_sdPrinting (p_job (h_printer h)).
Proof.
  destruct h as [[fd sd cm st [gl fn ld sdp sdf sds spa] status hist mon calls] tl cbs tr].
  simpl in Hc. subst cm. unfold Host.deleteSdFile. simpl.
  destruct sdf as [f|].
  - destruct (String.eqb_spec f name) as [->|Hne]; host_simpl;
      repeat split; intros; try congruence.
  - host_simpl. repeat split; intros; congruence.
Qed.

Lemma deleteSdFile_selection_witness :
  p_comm (h_printer connected_host) = Some Scenario.comm_operational /\
  h_trace (Host.deleteSdFile connected_host "CUBE.GCO") = [HCommDeleteSdFile "CUBE.GCO"].
Proof.
  split; [reflexivity|].
  exact (proj1 (deleteSdFile_selection connected_host Scenario.comm_operational "CUBE.GCO" eq_refl)).
Defined.

(** ** Feed rate modifiers *)

Lemma feedrateModifierMapping_cases (s : string) :
  (s = "outerWall"%string /\ Host.feedrateModifierMapping s = Some "WALL-OUTER"%string) \/
  (s = "innerWall"%string /\ Host.feedrateModifierMapping s = Some "WALL_INNER"%string) \/
  (s = "fill"%string /\ Host.feedrateModifierMapping s = Some "FILL"%string) \/
  (s = "support"%string /\ Host.feedrateModifierMapping s = Some "SUPPORT"%string) \/
  (~ In s ["outerWall"; "innerWall"; "fill"; "support"]%string /\ Host.feedrateModifierMapping s = None).
Proof.
  unfold Host.feedrateModifierMapping.
  destruct (String.eqb_spec s "outerWall") as [->|H1]; [left; auto|].
  destruct (String.eqb_spec s "innerWall") as [->|H2]; [right; left; auto|].
  destruct (String.eqb_spec s "fill") as [->|H3]; [right; right; left; auto|].
  destruct (String.eqb_spec s "support") as [->|H4]; [right; right; right; left; auto|].
  right; right; right; right. split; [|reflexivity].
  simpl. intuition congruence.
Qed.

(** [setFeedrateModifier] ignores a structure other than [outerWall],
    [innerWall], [fill] and [support], and a negative percentage.  For one of
    the four and a percentage >= 0 it sends the structure's G-code segment
    label ([WALL-OUTER], [WALL_INNER], [FILL], [SUPPORT]) with the factor
    [percentage / 100] to the Communicator, and changes nothing else. *)
Theorem setFeedrateModifier_effect (h : Host) (structure : string) (percentage : Q) :
  ((~ In structure ["outerWall"; "innerWall"; "fill"; "support"]%string \/ (percentage < 0)%Q) ->
     Host.setFeedrateModifier h structure percentage = Done h) /\
  (forall c, p_comm (h_printer h) = Some c ->
     In structure ["outerWall"; "innerWall"; "fill"; "support"]%string -> (0 <= percentage)%Q ->
     exists label,
       In (structure, label) [("outerWall", "WALL-OUTER"); ("innerWall", "WALL_INNER");
                              ("fill", "FILL"); ("support", "SUPPORT")]%string /\
       Host.setFeedrateModifier h structure percentage =
         Done (Host.emit h (HCommSetFeedrateModifier label (percentage / 100)))).
Proof.
  unfold Host.setFeedrateModifier. split.
  - intros Hign.
    destruct (feedrateModifierMapping_cases structure) as
      [[-> ->]|[[-> ->]|[[-> ->]|[[-> ->]|[Hn ->]]]]]; try reflexivity;
    (destruct Hign as [Hn|Hneg]; [simpl in Hn; intuition|]);
    (replace (Qle_bool 0 percentage) with false; [reflexivity|]);
    symmetry; apply Bool.not_true_iff_false; rewrite Qle_bool_iff; apply Qlt_not_le; exact Hneg.
  - intros c Hc Hin Hp. apply Qle_bool_iff in Hp. rewrite Hc.
    destruct (feedrateModifierMapping_cases structure) as
      [[-> ->]|[[-> ->]|[[-> ->]|[[-> ->]|[Hn ->]]]]];
      try (eexists; split; [simpl; tauto | rewrite Hp; reflexivity]).
    contradiction.
Qed.

Lemma setFeedrateModifier_effect_witness :
  p_comm (h_printer connected_host) = Some Scenario.comm_operational /\
  In "fill"%string ["outerWall"; "innerWall"; "fill"; "support"]%string /\ (0 <= 150 # 1)%Q /\
  Host.setFeedrateModifier connected_host "fill" (150 # 1)
    = Done (Host.emit connected_host (HCommSetFeedrateModifier "FILL" ((150 # 1) / 100))).
Proof.
  split; [reflexivity|]. split; [simpl; tauto|]. split; [discriminate|].
  destruct (proj2 (setFeedrateModifier_effect connected_host "fill" (150 # 1))
              Scenario.comm_operational eq_refl ltac:(simpl; tauto) ltac:(discriminate))
    as (label & Hl & E).
  simpl in Hl. rewrite E.
  destruct Hl as [Hl|[Hl|[Hl|[Hl|[]]]]]; inversion Hl; reflexivity.
Defined.

(** ** Connection state changes *)

(** [mcStateChange] with a Communicator, for the job archive: a print that
    leaves [STATE_PRINTING] is reported as succeeded when the new state is
    [STATE_OPERATIONAL], as failed when it is [STATE_CLOSED], [STATE_ERROR] or
    [STATE_CLOSED_WITH_ERROR], and not reported otherwise (e.g. on pause);
    G-code analysis resumes on every exit from [STATE_PRINTING] and pauses on
    every entry into it from another state.  At most one report and one
    analysis call go out, besides a timelapse notification, and the new state
    is recorded and pushed to the state monitor. *)
Theorem mcStateChange_archive (h : Host) (c : Comm) (s : ConnState)
    (Hc : p_comm (h_printer h) = Some c) :
  let old := p_state (h_printer h) in
  let fn := j_filename (p_job (h_printer h)) in
  exists h' added, Host.mcStateChange h s = Done h' /\
    h_trace h' = h_trace h ++ added /\
    (In (HPrintSucceeded fn) added <-> old = Some STATE_PRINTING /\ s = STATE_OPERATIONAL) /\
    (In (HPrintFailed fn) added <->
       old = Some STATE_PRINTING /\ (s = STATE_CLOSED \/ s = STATE_ERROR \/ s = STATE_CLOSED_WITH_ERROR)) /\
    (In HResumeAnalysis added <-> old = Some STATE_PRINTING) /\
    (In HPauseAnalysis added <-> old <> Some STATE_PRINTING /\ s = STATE_PRINTING) /\
    (length added <= 3)%nat /\
    p_state (h_printer h') = Some s /\
    m_state (p_mon (h_printer h')) =
      Some (mkStateInfo (Some s) (Printer.getStateString (h_printer h'))
                        (Printer.getStateFlags (h_printer h'))).
Proof.
  destruct h as [[fd sd cm st job status hist mon calls] tl cbs tr].
  simpl in Hc. subst cm. cbv zeta.
  unfold Host.mcStateChange.
  destruct tl as [t|], st as [o|], s; try destruct o;
    host_simpl; do 2 eexists; (split; [reflexivity|]);
    (split; [rewrite <- ?app_assoc; first [reflexivity | symmetry; apply app_nil_r]|]);
    host_simpl; repeat split; simpl; first [lia | intuition congruence].
Qed.

Lemma mcStateChange_archive_witness :
  p_comm (h_printer connected_host) = Some Scenario.comm_operational /\
  exists h' added, Host.mcStateChange connected_host STATE_OPERATIONAL = Done h' /\
    h_trace h' = added /\ ~ In (HPrintSucceeded None) added.
Proof.
  split; [reflexivity|].
  destruct (mcStateChange_archive connected_host Scenario.comm_operational STATE_OPERATIONAL eq_refl)
    as (h' & added & E & T & [Hs _] & _).
  exists h', added. split; [exact E|]. split; [exact T|].
  intros Hin. destruct (Hs Hin) as [Ho _]. discriminate Ho.
Defined.

(** [mcStateChange] with a Communicator and a timelapse: the timelapse is
    told the print job stopped on every change from [STATE_PRINTING] to a
    state other than [STATE_PAUSED] (a repeated [STATE_PRINTING] included),
    and that it started, with the job's file name, on every change into
    [STATE_PRINTING] from a state other than [STATE_PAUSED] and
    [STATE_PRINTING]; pausing and resuming tell it nothing. *)
Theorem mcStateChange_timelapse (h : Host) (c : Comm) (t : nat) (s : ConnState)
    (Hc : p_comm (h_printer h) = Some c) (Ht : h_timelapse h = Some t) :
  let old := p_state (h_printer h) in
  let fn := j_filename (p_job (h_printer h)) in
  exists h' added, Host.mcStateChange h s = Done h' /\
    h_trace h' = h_trace h ++ added /\
    (In (HPrintjobStopped t) added <-> old = Some STATE_PRINTING /\ s <> STATE_PAUSED) /\
    (In (HPrintjobStarted t fn) added <->
       s = STATE_PRINTING /\ old <> Some STATE_PAUSED /\ old <> Some STATE_PRINTING) /\
    (forall t' f, In (HPrintjobStarted t' f) added -> t' = t /\ f = fn) /\
    h_timelapse h' = Some t.
Proof.
  destruct h as [[fd sd cm st job status hist mon calls] tl cbs tr].
  simpl in Hc, Ht. subst cm tl. cbv zeta.
  unfold Host.mcStateChange.
  destruct st as [o|], s; try destruct o;
    host_simpl; do 2 eexists; (split; [reflexivity|]);
    (split; [rewrite <- ?app_assoc; first [reflexivity | symmetry; apply app_nil_r]|]);
    host_simpl; repeat split; simpl; intuition congruence.
Qed.

Lemma mcStateChange_timelapse_witness :
  p_comm (h_printer (mkHost Scenario.connected (Some 7%nat) [] [])) = Some Scenario.comm_operational /\
  h_timelapse (mkHost Scenario.connected (Some 7%nat) [] []) = Some 7%nat /\
  exists h' added, Host.mcStateChange (mkHost Scenario.connected (Some 7%nat) [] []) STATE_PRINTING = Done h' /\
    h_trace h' = added /\ In (HPrintjobStarted 7 None) added.
Proof.
  split; [reflexivity|]. split; [reflexivity|].
  destruct (mcStateChange_timelapse (mkHost Scenario.connected (Some 7%nat) [] []) Scenario.comm_operational
              7 STATE_PRINTING eq_refl eq_refl) as (h' & added & E & T & _ & [_ Hs] & _).
  exists h', added. split; [exact E|]. split; [exact T|].
  apply Hs. split; [reflexivity|]. split; discriminate.
Defined.

(** ** Z height *)

(** Two successive [mcZChange] reports: the timelapse, when there is one,
    sees each change with the previous height as its old value, so the
    second change starts from the first one's new height.  The printer keeps
    the last height, and the state monitor shows it formatted, except that a
    height of 0 is shown as no height (Python truthiness of [0.0]). *)
Theorem mcZChange_chain (h : Host) (z1 z2 : Q) :
  let h2 := Host.mcZChange (Host.mcZChange h z1) z2 in
  h_trace h2 = h_trace h ++
    (match h_timelapse h with
     | Some t => [HZChange t (s_currentZ (p_status (h_printer h))) (Some z1);
                  HZChange t (Some z1) (Some z2)]
     | None => [] end) /\
  s_currentZ (p_status (h_printer h2)) = Some z2 /\
  m_currentZ (p_mon (h_printer h2)) = (if Qeq_bool z2 0 then None else Some (FmtMm z2)) /\
  p_job (h_printer h2) = p_job (h_printer h) /\
  p_calls (h_printer h2) = p_calls (h_printer h).
Proof.
  destruct h as [[fd sd cm st job status hist mon calls] [t|] cbs tr];
    unfold Host.mcZChange; host_simpl; rewrite <- ?app_assoc; simpl;
    (destruct (Qeq_bool z2 0); repeat split).
Qed.

(** ** Print progress *)

Lemma fraction_unit (a b : nat) : (0 < b)%nat -> (a <= b)%nat ->
  (0 <= GcodeLoader.fraction a b <= 1)%Q.
Proof.
  intros Hb Hab. unfold GcodeLoader.fraction.
  assert (Hb' : (0 < inject_Z (Z.of_nat b))%Q) by (unfold Qlt; simpl; lia).
  split.
  - apply Qle_shift_div_l; [exact Hb'|]. unfold Qle; simpl; lia.
  - apply Qle_shift_div_r; [exact Hb'|]. rewrite Qmult_1_l. unfold Qle; simpl; lia.
Qed.



(** ** Loading a job and printing it *)

Lemma fold_loading (f : string) (l : list Q) (p : Printer) :
  fold_left (fun q pr => Printer.onGcodeLoadingProgress q f pr) l p =
  Printer.set_mon p (fold_left (fun m pr => StateMonitor.setGcodeData m
                     (mkGcodeData (Some (Py.basename f)) (Some pr) (Some "loading"%string))) l (p_mon p)).
Proof.
  revert p. induction l as [|x r IH]; intros p; simpl.
  - destruct p; reflexivity.
  - rewrite IH. destruct p; reflexivity.
Qed.

Lemma loader_run_head (contents : string) :
  exists rest, fst (GcodeLoader.run contents) = Bare "M110 N0" :: rest.
Proof.
  unfold GcodeLoader.run.
  destruct (GcodeLoader.run_lines _ _ _ _ _ _) as [cmds progress]. simpl. eauto.
Qed.

(** [loadGcode] with [printAfterLoading] on a connected, operational, idle
    printer with no loader running, followed by the loader thread: the
    Communicator receives exactly one [printGCode] call, with the command list
    the loader built, which is also the job's command list; the job's file
    name is the loaded file, no SD file is selected and the loader is gone. *)
Lemma setJobData_eq (p : Printer) (f : option string) (gl : option (list GcodeEntry)) :
  exists m, Printer.setJobData p f gl =
    mkPrinter (p_fileData p) (p_sdSupport p) (p_comm p) (p_state p)
              (Printer.with_gcodeList (Printer.with_filename (p_job p) f) gl)
              (p_status p) (p_hist p) m (p_calls p).
Proof.
  destruct p as [fd sd cm st job status hist mon calls].
  unfold Printer.setJobData. simpl.
  destruct f as [f|]; [destruct (Printer.truthy_str (Some f)); [destruct (fd f) as [[e fl]|]|]|];
    eexists; reflexivity.
Qed.

Lemma pushState_eq (q : Printer) :
  exists m, Printer.pushState q =
    mkPrinter (p_fileData q) (p_sdSupport q) (p_comm q) (p_state q) (p_job q) (p_status q)
              (p_hist q) m (p_calls q).
Proof. eexists. reflexivity. Qed.

Lemma loadGcode_fields (p : Printer) (file : string) (pal : bool) :
  Printer.isPrinting p = false -> j_gcodeLoader (p_job p) = None ->
  p_job (Printer.loadGcode p file pal) =
    Printer.with_gcodeLoader (Printer.with_gcodeList (Printer.with_filename
      (Printer.with_sdFile (p_job p) None) None) None) (Some (mkLoader file pal)) /\
  p_comm (Printer.loadGcode p file pal) = p_comm p /\
  p_calls (Printer.loadGcode p file pal) = p_calls p.
Proof.
  intros H1 H2. unfold Printer.loadGcode. rewrite H1, H2. repeat split.
Qed.

Lemma gcodeLoaderRun_fields (p : Printer) (contents : string) (ld : Loader) :
  j_gcodeLoader (p_job p) = Some ld ->
  exists p1, Printer.gcodeLoaderRun p contents =
    (if ld_printAfterLoading ld then Printer.onGcodeLoadedToPrint else Printer.onGcodeLoaded)
      p1 (ld_filename ld) (fst (GcodeLoader.run contents)) /\
    p_job p1 = p_job p /\ p_comm p1 = p_comm p /\ p_calls p1 = p_calls p /\
    p_fileData p1 = p_fileData p /\ p_status p1 = p_status p.
Proof.
  intros H. unfold Printer.gcodeLoaderRun. rewrite H.
  destruct (GcodeLoader.run contents) as [gl prog]. simpl.
  rewrite fold_loading. eexists. split; [destruct (ld_printAfterLoading ld); reflexivity|].
  repeat split.
Qed.

Lemma onGcodeLoaded_fields (p : Printer) (f : string) (gl : list GcodeEntry) :
  p_job (Printer.onGcodeLoaded p f gl) =
    Printer.with_gcodeLoader (Printer.with_gcodeList (Printer.with_filename (p_job p) (Some f))
                                                     (Some gl)) None /\
  p_comm (Printer.onGcodeLoaded p f gl) = p_comm p /\
  p_calls (Printer.onGcodeLoaded p f gl) = p_calls p.
Proof.
  unfold Printer.onGcodeLoaded. destruct (setJobData_eq p (Some f) (Some gl)) as [m E].
  rewrite E. repeat split.
Qed.

Lemma startPrint_sd (p : Printer) (c : Comm) (f : string) :
  p_comm p = Some c -> c_operational c = true -> c_printing c = false ->
  j_sdFile (p_job p) = Some f ->
  p_calls (Printer.startPrint p) = p_calls p ++ [CPrintSdFile] /\
  p_job (Printer.startPrint p) = Printer.with_sdPrinting (p_job p) true /\
  p_comm (Printer.startPrint p) = Some c.
Proof.
  intros Hc Hop Hpr Hsd. unfold Printer.startPrint. rewrite Hc, Hop. simpl.
  rewrite Hsd. destruct (j_gcodeList (p_job p)); rewrite Hpr; repeat split; exact Hc.
Qed.

Lemma startPrint_local (p : Printer) (c : Comm) (l : list GcodeEntry) :
  p_comm p = Some c -> c_operational c = true -> c_printing c = false ->
  j_sdFile (p_job p) = None -> j_gcodeList (p_job p) = Some l ->
  p_calls (Printer.startPrint p) = p_calls p ++ [CPrintGCode l] /\
  p_job (Printer.startPrint p) = p_job p /\ p_comm (Printer.startPrint p) = Some c.
Proof.
  intros Hc Hop Hpr Hsd Hgl. unfold Printer.startPrint. rewrite Hc, Hop. simpl.
  rewrite Hgl, Hsd, Hpr. repeat split. exact Hc.
Qed.

Theorem load_and_print_local (p : Printer) (c : Comm) (file contents : string)
    (Hc : p_comm p = Some c) (Hop : c_operational c = true) (Hpr : c_printing c = false)
    (Hld : j_gcodeLoader (p_job p) = None) :
  let p' := Printer.gcodeLoaderRun (Printer.loadGcode p file true) contents in
  p_calls p' = p_calls p ++ [CPrintGCode (fst (GcodeLoader.run contents))] /\
  j_gcodeList (p_job p') = Some (fst (GcodeLoader.run contents)) /\
  j_filename (p_job p') = Some file /\
  j_sdFile (p_job p') = None /\
  j_gcodeLoader (p_job p') = None /\
  p_comm p' = Some c.
Proof.
  cbv zeta.
  assert (Hip : Printer.isPrinting p = false) by (unfold Printer.isPrinting; rewrite Hc; exact Hpr).
  destruct (loadGcode_fields p file true Hip Hld) as (J & C & K).
  destruct (gcodeLoaderRun_fields (Printer.loadGcode p file true) contents (mkLoader file true))
    as (p1 & E & J1 & C1 & K1 & _); [rewrite J; reflexivity|].
  rewrite E. simpl. unfold Printer.onGcodeLoadedToPrint.
  set (gl := fst (GcodeLoader.run contents)).
  destruct (onGcodeLoaded_fields p1 file gl) as (J2 & C2 & K2).
  destruct (startPrint_local (Printer.onGcodeLoaded p1 file gl) c gl) as (K3 & J3 & C3).
  - rewrite C2, C1, C. exact Hc.
  - exact Hop.
  - exact Hpr.
  - rewrite J2, J1, J. reflexivity.
  - rewrite J2. reflexivity.
  - rewrite K3, J3, C3, J2, K2, J1, K1, J, K. repeat split.
Qed.

Lemma load_and_print_local_witness :
  p_comm Scenario.connected = Some Scenario.comm_operational /\
  p_calls (Printer.gcodeLoaderRun (Printer.loadGcode Scenario.connected "/tmp/cube.gcode" true) "G1 X1")
    = [CPrintGCode [Bare "M110 N0"; Bare "G1 X1"]].
Proof.
  split; [reflexivity|].
  destruct (load_and_print_local Scenario.connected Scenario.comm_operational "/tmp/cube.gcode" "G1 X1"
              eq_refl eq_refl eq_refl eq_refl) as [K _].
  rewrite K. vm_compute. reflexivity.
Defined.

(** ** Printing from the SD card *)

(** Selecting an SD file with [printAfterSelect] on a connected, operational,
    idle printer: once the Communicator confirms the selection
    ([mcSdSelected]), the printer has asked it to select the file and then to
    print it, is SD printing, and takes the SD file as the job (file name set,
    no local command list).  When the Communicator reports the SD print done
    ([mcSdPrintingDone]), SD printing ends, progress is 1 and the selection is
    kept. *)
Theorem sd_print_lifecycle (p : Printer) (c : Comm) (name : string) (size : Z)
    (tl : option nat) (cbs : list nat) (tr : list HostCall) (pt ptl : option Q)
    (Hc : p_comm p = Some c) (Hop : c_operational c = true) (Hpr : c_printing c = false) :
  exists p2, Printer.mcSdSelected (Printer.selectSdFile p name true) name size = Ok p2 /\
    p_calls p2 = p_calls p ++ [CSelectSdFile name; CPrintSdFile] /\
    j_sdPrinting (p_job p2) = true /\
    j_sdFile (p_job p2) = Some name /\
    j_filename (p_job p2) = Some name /\
    j_gcodeList (p_job p2) = None /\
    exists h3, Host.mcSdPrintingDone (mkHost p2 tl cbs tr) pt ptl = Done h3 /\
      j_sdPrinting (p_job (h_printer h3)) = false /\
      s_progress (p_status (h_printer h3)) = Some 1%Q /\
      j_sdFile (p_job (h_printer h3)) = Some name /\
      p_calls (h_printer h3) = p_calls p2 /\
      h_trace h3 = tr.
Proof.
  unfold Printer.mcSdSelected.
  match goal with |- context [Printer.setJobData ?q ?f ?g] =>
    destruct (setJobData_eq q f g) as [m1 E1]; rewrite E1 end.
  match goal with |- context [Printer.pushState ?q] =>
    destruct (pushState_eq q) as [m2 E2]; rewrite E2 end.
  unfold Printer.selectSdFile. rewrite Hc. simpl.
  eexists. split; [reflexivity|].
  match goal with |- context [Printer.startPrint ?q] =>
    destruct (startPrint_sd q c name) as (K & J & C); [exact Hc | exact Hop | exact Hpr | reflexivity |];
    set (p2 := Printer.startPrint q) in * end.
  rewrite K, J.
  cbn [p_calls p_job Printer.with_sdPrinting Printer.with_gcodeList Printer.with_filename
       Printer.with_sdFile Printer.with_sdPrintAfterSelect j_sdPrinting j_sdFile j_filename j_gcodeList].
  rewrite <- app_assoc. repeat split.
  unfold Host.mcSdPrintingDone. rewrite lift_same_calls by reflexivity.
  cbn [h_printer]. change (p_comm (Printer.upd_job p2 (fun j => Printer.with_sdPrinting j false))) with (p_comm p2).
  rewrite C, lift_same_calls by reflexivity.
  eexists; split; [reflexivity|]. simpl. rewrite J, K. simpl. rewrite <- app_assoc. repeat split.
Qed.

Lemma sd_print_lifecycle_witness :
  p_comm Scenario.connected = Some Scenario.comm_operational /\
  exists p2, Printer.mcSdSelected (Printer.selectSdFile Scenario.connected "CUBE.GCO" true) "CUBE.GCO" 1024
             = Ok p2 /\ p_calls p2 = [CSelectSdFile "CUBE.GCO"; CPrintSdFile].
Proof.
  split; [reflexivity|].
  destruct (sd_print_lifecycle Scenario.connected Scenario.comm_operational "CUBE.GCO" 1024 None [] []
              None None eq_refl eq_refl eq_refl) as (p2 & E & K & _).
  exists p2. split; [exact E|]. rewrite K. reflexivity.
Defined.

(** ** The G-code loader and the SD streamer *)

Lemma run_lines_cmds (lines : list string) (pos rd size : nat) (prev lt : string) :
  map entry_cmd (fst (GcodeLoader.run_lines lines pos rd size prev lt)) =
  filter (fun l => (0 <? String.length l)%nat) (map clean_line lines).
Proof.
  revert pos rd prev lt. induction lines as [|l0 r IH]; intros pos rd prev lt; [reflexivity|].
  cbn [GcodeLoader.run_lines map filter].
  change (Py.strip (if Py.contains ";"%char l0 then Py.take (Py.find ";"%char l0) l0 else l0))
    with (clean_line l0).
  destruct (0 <? String.length (clean_line l0))%nat eqn:E.
  - destruct (negb _); cbn zeta;
      destruct (GcodeLoader.run_lines r _ _ _ _ _) as [cmds progress] eqn:Er;
      pose proof (f_equal (fun x => map entry_cmd (fst x)) Er) as H; simpl in H;
      rewrite IH in H; simpl; rewrite H; reflexivity.
  - destruct (GcodeLoader.run_lines r _ _ _ _ _) as [cmds progress] eqn:Er;
      pose proof (f_equal (fun x => map entry_cmd (fst x)) Er) as H; simpl in H;
      rewrite IH in H; simpl; rewrite H; reflexivity.
Qed.

Lemma run_lines_progress (lines : list string) (pos rd size : nat) (prev lt : string) :
  snd (GcodeLoader.run_lines lines pos rd size prev lt) =
  map (fun k => GcodeLoader.fraction k size) (line_tells pos rd size lines).
Proof.
  revert pos rd prev lt. induction lines as [|l0 r IH]; intros pos rd prev lt; [reflexivity|].
  cbn [GcodeLoader.run_lines line_tells map].
  destruct (if (0 <? String.length _)%nat then _ else _) as [emitted prev'].
  destruct (GcodeLoader.run_lines r _ _ _ _ _) as [cmds progress] eqn:Er. cbn [snd].
  f_equal. pose proof (f_equal snd Er) as H. cbn [snd] in H. rewrite IH in H. exact (eq_sym H).
Qed.

Lemma stream_lines_ok (sd : string) (lines : list string) (i pos rd size : nat) :
  let '(tr, r) := SdStreamer.stream_lines sd lines i pos rd size (fun _ => false) in
  r = Ok tt /\
  flat_map sent_of tr = filter (fun l => (0 <? String.length l)%nat) (map clean_line lines) /\
  flat_map progress_of tr = map (fun k => GcodeLoader.fraction k size) (line_tells pos rd size lines).
Proof.
  revert i pos rd. induction lines as [|l0 r IH]; intros i pos rd; [simpl; auto|].
  cbn [SdStreamer.stream_lines line_tells map filter].
  change (Py.strip (if Py.contains ";"%char l0 then Py.take (Py.find ";"%char l0) l0 else l0))
    with (clean_line l0).
  specialize (IH (S i) (pos + String.length l0)%nat
                 (Py.next_line_tell pos rd (pos + String.length l0) size)).
  destruct (SdStreamer.stream_lines sd r _ _ _ _ _) as [tr res] eqn:Er.
  destruct IH as (Hr & Hs & Hp).
  destruct (0 <? String.length (clean_line l0))%nat; cbn [app flat_map sent_of progress_of];
    rewrite ?flat_map_app; cbn [app flat_map sent_of progress_of]; rewrite Hs, Hp; auto.
Qed.

Lemma str_app_assoc (a b c : string) : ((a ++ b) ++ c)%string = (a ++ (b ++ c))%string.
Proof. induction a as [|x a IH]; simpl; [reflexivity | now rewrite IH]. Qed.

Lemma str_app_nil_r (a : string) : (a ++ EmptyString)%string = a.
Proof. induction a as [|x a IH]; simpl; [reflexivity | now rewrite IH]. Qed.

Lemma rev_str_acc (s acc : string) : Py.rev_str s acc = (Py.rev_str s EmptyString ++ acc)%string.
Proof.
  revert acc. induction s as [|c s IH]; intros acc; simpl; [reflexivity|].
  rewrite (IH (String c acc)), (IH (String c EmptyString)).
  rewrite str_app_assoc. reflexivity.
Qed.

Lemma lines_aux_concat (s cur : string) :
  fold_right String.append EmptyString (Py.lines_aux s cur) = (Py.rev_str cur EmptyString ++ s)%string.
Proof.
  revert cur. induction s as [|c r IH]; intros cur.
  - destruct cur as [|d cur']; simpl; [reflexivity|]. rewrite !str_app_nil_r. reflexivity.
  - simpl. destruct (Ascii.eqb c "010"%char).
    + simpl. rewrite IH. simpl. rewrite (rev_str_acc cur (String c EmptyString)), str_app_assoc. reflexivity.
    + rewrite IH. simpl. rewrite (rev_str_acc cur (String c EmptyString)), str_app_assoc. reflexivity.
Qed.

(** Python's line iteration loses nothing: the lines put back together give
    the file. *)
Lemma file_lines_concat (s : string) : fold_right String.append EmptyString (Py.file_lines s) = s.
Proof. unfold Py.file_lines. rewrite lines_aux_concat. reflexivity. Qed.

Lemma min_read_bounds (rd size b : nat) :
  (rd <= size)%nat -> (rd <= Nat.min size (rd + b) <= size)%nat.
Proof. intros H. destruct (Nat.min_spec size (rd + b)) as [[H1 ->]|[H1 ->]]; lia. Qed.

Lemma readahead_chase_bounds (fuel rd e size b : nat) :
  (rd <= size)%nat -> (rd <= Py.readahead_chase fuel rd e size b <= size)%nat.
Proof.
  revert rd b. induction fuel as [|f IH]; intros rd b H; cbn [Py.readahead_chase]; [lia|].
  destruct (e <=? rd)%nat; [lia|].
  pose proof (min_read_bounds rd size b H) as M.
  specialize (IH (Nat.min size (rd + b)) (b + b / 4)%nat ltac:(lia)). lia.
Qed.

Lemma readahead_chase_reaches (fuel rd e size b : nat) :
  (rd <= size)%nat -> (e <= size)%nat -> (e <= rd + fuel)%nat -> (0 < b)%nat ->
  (e <= Py.readahead_chase fuel rd e size b)%nat.
Proof.
  revert rd b. induction fuel as [|f IH]; intros rd b H He Hf Hb; cbn [Py.readahead_chase]; [lia|].
  destruct (Nat.leb_spec e rd) as [Hle|Hgt]; [exact Hle|].
  pose proof (min_read_bounds rd size b H) as M.
  apply IH; lia.
Qed.

Lemma next_line_tell_bounds (bp rd e size : nat) :
  (rd <= size)%nat -> (rd <= Py.next_line_tell bp rd e size <= size)%nat.
Proof.
  intros H. unfold Py.next_line_tell.
  set (rd1 := if (bp <? rd)%nat then rd else Nat.min size (rd + Py.READAHEAD_BUFSIZE)).
  assert (H1 : (rd <= rd1 <= size)%nat)
    by (unfold rd1; destruct (bp <? rd)%nat; [lia | apply min_read_bounds; exact H]).
  pose proof (readahead_chase_bounds e rd1 e size
                (Py.READAHEAD_BUFSIZE + Py.READAHEAD_BUFSIZE / 4) ltac:(lia)). lia.
Qed.

Lemma next_line_tell_reaches (bp rd e size : nat) :
  (rd <= size)%nat -> (e <= size)%nat -> (e <= Py.next_line_tell bp rd e size)%nat.
Proof.
  intros H He. unfold Py.next_line_tell.
  apply readahead_chase_reaches;
    [destruct (bp <? rd)%nat; [lia | apply min_read_bounds; exact H] | exact He | lia |].
  apply Nat.add_pos_l. apply Nat.ltb_lt. reflexivity.
Qed.

Lemma line_tells_length (pos rd size : nat) (lines : list string) :
  length (line_tells pos rd size lines) = length lines.
Proof. revert pos rd; induction lines; intros; simpl; auto. Qed.

Lemma line_tells_bounds (pos rd size : nat) (lines : list string) :
  (rd <= size)%nat -> Forall (fun k => rd <= k <= size)%nat (line_tells pos rd size lines).
Proof.
  revert pos rd. induction lines as [|l r IH]; intros pos rd H; cbn [line_tells]; constructor.
  - apply next_line_tell_bounds. exact H.
  - pose proof (next_line_tell_bounds pos rd (pos + String.length l) size H) as B.
    eapply Forall_impl; [|exact (IH _ _ (proj2 B))]. intros k Hk. simpl in Hk. lia.
Qed.

Lemma line_tells_step (pos rd size : nat) (lines : list string) (i x y : nat) :
  (rd <= size)%nat ->
  nth_error (line_tells pos rd size lines) i = Some x ->
  nth_error (line_tells pos rd size lines) (S i) = Some y -> (x <= y)%nat.
Proof.
  revert pos rd i. induction lines as [|l r IH]; intros pos rd i H Hx Hy; [destruct i; discriminate|].
  pose proof (next_line_tell_bounds pos rd (pos + String.length l) size H) as B.
  destruct i as [|i]; cbn [line_tells nth_error] in Hx, Hy.
  - inversion Hx; subst x. destruct r as [|l' r']; [discriminate|].
    cbn [line_tells nth_error] in Hy. inversion Hy.
    apply next_line_tell_bounds. lia.
  - exact (IH _ _ _ (proj2 B) Hx Hy).
Qed.

Lemma line_tells_last (pos rd size : nat) (lines : list string) :
  lines <> [] -> (rd <= size)%nat ->
  (pos + String.length (fold_right String.append EmptyString lines) <= size)%nat ->
  (pos + String.length (fold_right String.append EmptyString lines)
     <= last (line_tells pos rd size lines) 0)%nat.
Proof.
  revert pos rd. induction lines as [|l r IH]; intros pos rd Hne H Hs; [congruence|].
  cbn [fold_right] in Hs |- *. rewrite str_length_append in Hs |- *.
  pose proof (next_line_tell_bounds pos rd (pos + String.length l) size H) as B.
  destruct r as [|l' r'].
  - cbn [line_tells last fold_right String.length].
    eapply Nat.le_trans; [|apply next_line_tell_reaches]; lia.
  - change (last (line_tells pos rd size (l :: l' :: r')) 0%nat)
      with (last (line_tells (pos + String.length l)
                    (Py.next_line_tell pos rd (pos + String.length l) size) size (l' :: r')) 0%nat).
    specialize (IH (pos + String.length l)%nat (Py.next_line_tell pos rd (pos + String.length l) size)
                   ltac:(discriminate) ltac:(lia)).
    cbn [fold_right] in *. rewrite ?str_length_append in *. rewrite Nat.add_assoc. apply IH. lia.
Qed.

Lemma last_map_ne {A B} (f : A -> B) (l : list A) (d : B) (d' : A) :
  l <> [] -> last (map f l) d = f (last l d').
Proof.
  intros Hne. induction l as [|a r IH]; [congruence|].
  destruct r as [|b r']; [reflexivity|].
  change (last (map f (a :: b :: r')) d) with (last (map f (b :: r')) d).
  change (last (a :: b :: r') d') with (last (b :: r') d').
  apply IH. discriminate.
Qed.

Lemma fraction_mono (a b s : nat) : (a <= b)%nat -> (GcodeLoader.fraction a s <= GcodeLoader.fraction b s)%Q.
Proof.
  intros H. unfold GcodeLoader.fraction, Qdiv. apply Qmult_le_compat_r.
  - unfold Qle; simpl; lia.
  - apply Qinv_le_0_compat. unfold Qle; simpl; lia.
Qed.

Lemma fraction_self (n : nat) : (0 < n)%nat -> (GcodeLoader.fraction n n == 1)%Q.
Proof.
  intros H. unfold GcodeLoader.fraction, Qdiv. apply Qmult_inv_r.
  intros E. unfold Qeq in E. simpl in E. lia.
Qed.

(** The [GcodeLoader] builds ["M110 N0"] followed by one command per line of
    the file that is not empty once its comment (from the first [;]) is cut
    off and surrounding whitespace is stripped, in file order: the command
    is that cleaned line, tagged or not with its segment label. *)
Theorem gcode_loader_commands (contents : string) :
  exists cmds, fst (GcodeLoader.run contents) = Bare "M110 N0" :: cmds /\
    map entry_cmd cmds =
      filter (fun l => (0 <? String.length l)%nat) (map clean_line (Py.file_lines contents)) /\
    Forall (fun e => String.length (entry_cmd e) <> 0%nat) cmds.
Proof.
  unfold GcodeLoader.run.
  pose proof (run_lines_cmds (Py.file_lines contents) 0 0 (String.length contents) "CUSTOM" "CUSTOM") as H.
  destruct (GcodeLoader.run_lines _ _ _ _ _ _) as [cmds progress]. simpl in H |- *.
  exists cmds. split; [reflexivity|]. split; [exact H|].
  apply Forall_forall. intros e He.
  assert (Hin : In (entry_cmd e) (map entry_cmd cmds)) by (apply in_map; exact He).
  rewrite H in Hin. apply filter_In in Hin. destruct Hin as [_ Hl].
  apply Nat.ltb_lt in Hl. lia.
Qed.

Lemma last_in_ne {A} (l : list A) (d : A) : l <> [] -> In (last l d) l.
Proof.
  intros Hne. rewrite (app_removelast_last d Hne) at 2. apply in_or_app. right. left. reflexivity.
Qed.

(** The [GcodeLoader]'s progress reports, as [file.tell()] gives them under
    Python 2's read-ahead: one per line of the file, each in [0, 1], never
    decreasing, and the last one is 1 for a non-empty file. *)
Theorem gcode_loader_progress (contents : string) :
  let prog := snd (GcodeLoader.run contents) in
  length prog = length (Py.file_lines contents) /\
  Forall (fun q => 0 <= q <= 1)%Q prog /\
  (forall i x y, nth_error prog i = Some x -> nth_error prog (S i) = Some y -> (x <= y)%Q) /\
  (contents <> EmptyString -> (last prog 0 == 1)%Q).
Proof.
  cbv zeta. unfold GcodeLoader.run.
  pose proof (run_lines_progress (Py.file_lines contents) 0 0 (String.length contents) "CUSTOM" "CUSTOM")
    as H.
  destruct (GcodeLoader.run_lines _ _ _ _ _ _) as [cmds progress]. cbn [snd] in H |- *. subst progress.
  pose proof (file_lines_concat contents) as Hc.
  pose proof (line_tells_bounds 0 0 (String.length contents) (Py.file_lines contents) ltac:(lia)) as B.
  split; [|split; [|split]].
  - rewrite length_map. apply line_tells_length.
  - apply Forall_map. eapply Forall_impl; [|exact B]. simpl. intros k Hk.
    destruct (String.length contents) as [|n] eqn:En.
    + unfold GcodeLoader.fraction. simpl. split; unfold Qle; simpl; lia.
    + apply fraction_unit; lia.
  - intros i x y Hx Hy. rewrite nth_error_map in Hx. rewrite nth_error_map in Hy.
    destruct (nth_error (line_tells 0 0 _ _) i) as [a|] eqn:Ea; [|discriminate].
    destruct (nth_error (line_tells 0 0 _ _) (S i)) as [b|] eqn:Eb; [|discriminate].
    simpl in Hx, Hy. inversion Hx; inversion Hy; subst.
    apply fraction_mono. exact (line_tells_step 0 0 _ _ _ _ _ (Nat.le_0_l _) Ea Eb).
  - intros Hne.
    assert (Hl : Py.file_lines contents <> []).
    { intros E. apply Hne. rewrite <- Hc, E. reflexivity. }
    pose proof (line_tells_last 0 0 (String.length contents) (Py.file_lines contents) Hl ltac:(lia))
      as L. rewrite Hc in L. specialize (L ltac:(lia)).
    assert (Hne' : line_tells 0 0 (String.length contents) (Py.file_lines contents) <> []).
    { intros E. apply Hl. apply length_zero_iff_nil.
      rewrite <- (line_tells_length 0 0 (String.length contents)), E. reflexivity. }
    pose proof (proj1 (Forall_forall _ _) B _ (last_in_ne _ 0%nat Hne')) as U. simpl in U.
    rewrite (last_map_ne (fun k => GcodeLoader.fraction k (String.length contents)) _ 0%Q 0%nat Hne').
    replace (last (line_tells 0 0 (String.length contents) (Py.file_lines contents)) 0%nat)
      with (String.length contents) by lia.
    apply fraction_self. destruct contents; [congruence|simpl; lia].
Qed.

(** With the Communicator idle and nothing failing, the [SdFileStreamer]
    sends exactly the commands the [GcodeLoader] builds for the same file
    (without the loader's leading ["M110 N0"] and without segment labels), in
    the same order, and reports exactly the loader's progress sequence; the
    transfer is opened first and closed, then reported finished, last. *)
Theorem sd_streamer_matches_loader (filename contents : string) :
  let sd := sd_filename filename in
  let '(tr, r) := SdStreamer.run false filename contents (fun _ => false) in
  r = Ok tt /\
  flat_map sent_of tr = map entry_cmd (tl (fst (GcodeLoader.run contents))) /\
  flat_map progress_of tr = snd (GcodeLoader.run contents) /\
  exists mid, tr = SdStreamer.EStart sd :: mid ++ [SdStreamer.EEnd sd; SdStreamer.EFinish sd].
Proof.
  cbv zeta. unfold SdStreamer.run, SdStreamer.body. cbn iota beta.
  pose proof (stream_lines_ok (sd_filename filename) (Py.file_lines contents) 0 0 0 (String.length contents))
    as Hs.
  destruct (SdStreamer.stream_lines _ _ _ _ _ _ _) as [tr r]. destruct Hs as (Hr & Hsent & Hprog).
  unfold GcodeLoader.run.
  pose proof (run_lines_cmds (Py.file_lines contents) 0 0 (String.length contents) "CUSTOM" "CUSTOM") as Hc.
  pose proof (run_lines_progress (Py.file_lines contents) 0 0 (String.length contents) "CUSTOM" "CUSTOM")
    as Hp.
  destruct (GcodeLoader.run_lines _ _ _ _ _ _) as [cmds progress]. cbn [fst snd tl] in Hc, Hp |- *.
  split; [exact Hr|]. split; [|split].
  - rewrite flat_map_app. simpl. rewrite Hsent, app_nil_r, Hc. reflexivity.
  - rewrite flat_map_app. simpl. rewrite Hprog, app_nil_r, Hp. reflexivity.
  - exists tr. reflexivity.
Qed.

(** ** SD file names *)

Lemma substring0_length_le (m : nat) (s : string) : (String.length (substring 0 m s) <= m)%nat.
Proof.
  revert m. induction s as [|d r IH]; intros [|m]; simpl; try lia.
  specialize (IH m). lia.
Qed.

(** The SD card name of an upload never exceeds 12 characters (8.3 form).
    A file name without a dot loses its last character before the 8
    character cut ([name[:-1]], from [rfind] returning -1). *)
Theorem sd_filename_edge :
  (forall filename, (String.length (sd_filename filename) <= 12)%nat) /\
  (forall filename, ~ In "."%char (list_ascii_of_string filename) ->
     sd_filename filename =
       (substring 0 8 (substring 0 (String.length filename - 1) filename) ++ ".GCO")%string).
Proof.
  split.
  - intros f. unfold sd_filename. rewrite str_length_append.
    rewrite take_nonneg by lia.
    pose proof (substring0_length_le (Nat.min (Z.to_nat 8) (String.length (Py.take (Py.rfind "."%char f) f)))
                  (Py.take (Py.rfind "."%char f) f)).
    simpl (String.length ".GCO"). simpl (Z.to_nat 8) in *. lia.
  - intros f Hn. unfold sd_filename. rewrite (rfind_absent _ _ Hn).
    unfold Py.take at 2. replace (-1 <? 0) with true by reflexivity. cbv iota.
    replace (Z.to_nat (Z.max 0 (Z.of_nat (String.length f) + -1))) with (String.length f - 1)%nat by lia.
    rewrite take_nonneg by lia. rewrite substring_min. reflexivity.
Qed.

Lemma sd_filename_edge_witness :
  ~ In "."%char (list_ascii_of_string "model"%string) /\ sd_filename "model" = "mode.GCO"%string.
Proof.
  assert (Hn : ~ In "."%char (list_ascii_of_string "model"%string)) by (simpl; intuition discriminate).
  split; [exact Hn|].
  rewrite (proj2 sd_filename_edge "model"%string Hn). reflexivity.
Defined.

(** ** Callbacks and timelapse *)

Lemma remove_first_app_absent (x : nat) (l : list nat) :
  ~ In x l -> Host.remove_first x (l ++ [x]) = l.
Proof.
  induction l as [|y r IH]; intros Hn; simpl.
  - rewrite Nat.eqb_refl. reflexivity.
  - destruct (Nat.eqb_spec x y) as [E|E]; [subst; exfalso; apply Hn; left; reflexivity|].
    rewrite IH; [reflexivity|]. intros Hi. apply Hn. right. exact Hi.
Qed.

Lemma remove_first_app_present (x : nat) (l : list nat) :
  In x l -> Host.remove_first x (l ++ [x]) = Host.remove_first x l ++ [x].
Proof.
  induction l as [|y r IH]; intros Hi; simpl; [destruct Hi|].
  destruct (Nat.eqb_spec x y) as [E|E]; [reflexivity|].
  rewrite IH; [reflexivity|]. destruct Hi as [Hi|Hi]; [congruence|exact Hi].
Qed.

(** Registering a callback and unregistering it again: the new callback has
    been sent the history payload once, the printer is untouched, and the
    callback list is back to what it was when the callback was not
    registered before.  When it was, [list.remove] drops the older entry, so
    the callback stays registered, now at the end of the list. *)
Theorem callbacks_register_unregister (h : Host) (cb : nat) :
  let h' := Host.unregisterCallback (Host.registerCallback h cb) cb in
  h_trace h' = h_trace h ++ [HSendHistoryData cb] /\
  h_printer h' = h_printer h /\
  h_timelapse h' = h_timelapse h /\
  (~ In cb (h_callbacks h) -> h_callbacks h' = h_callbacks h) /\
  (In cb (h_callbacks h) -> h_callbacks h' = Host.remove_first cb (h_callbacks h) ++ [cb]).
Proof.
  destruct h as [p tl cbs tr]. cbv zeta.
  unfold Host.unregisterCallback, Host.registerCallback, Host.emit. cbn [h_callbacks h_printer h_timelapse h_trace].
  replace (existsb (Nat.eqb cb) (cbs ++ [cb])) with true
    by (symmetry; apply existsb_exists; exists cb; split; [apply in_or_app; right; left; reflexivity
                                                          | apply Nat.eqb_refl]).
  cbn [h_callbacks h_printer h_timelapse h_trace].
  split; [reflexivity|]. split; [reflexivity|]. split; [reflexivity|]. split.
  - apply remove_first_app_absent.
  - apply remove_first_app_present.
Qed.

Lemma callbacks_register_unregister_witness :
  ~ In 3%nat (h_callbacks (mkHost Scenario.connected None [1; 2]%nat [])) /\
  h_callbacks (Host.unregisterCallback (Host.registerCallback (mkHost Scenario.connected None [1; 2]%nat []) 3) 3)
    = [1; 2]%nat /\
  In 1%nat (h_callbacks (mkHost Scenario.connected None [1; 2]%nat [])) /\
  h_callbacks (Host.unregisterCallback (Host.registerCallback (mkHost Scenario.connected None [1; 2]%nat []) 1) 1)
    = [2; 1]%nat.
Proof.
  assert (Ha : ~ In 3%nat (h_callbacks (mkHost Scenario.connected None [1; 2]%nat []))) by (simpl; lia).
  assert (Hp : In 1%nat (h_callbacks (mkHost Scenario.connected None [1; 2]%nat []))) by (simpl; left; reflexivity).
  split; [exact Ha|]. split.
  - exact (proj1 (proj2 (proj2 (proj2 (callbacks_register_unregister _ 3%nat)))) Ha).
  - split; [exact Hp|].
    exact (proj2 (proj2 (proj2 (proj2 (callbacks_register_unregister _ 1%nat)))) Hp).
Defined.

(** A timelapse installed with [setTimelapse] while a print runs replaces
    the old one, which is told that the print job stopped; the new one is
    never told that the job started, yet when the print then ends (a change
    from [STATE_PRINTING] to anything but [STATE_PAUSED]) it is told that the
    job stopped. *)
Theorem setTimelapse_midprint (h : Host) (c : Comm) (t_old t_new : nat) (s : ConnState)
    (Hc : p_comm (h_printer h) = Some c) (Hp : c_printing c = true)
    (Ht : h_timelapse h = Some t_old) (Hst : p_state (h_printer h) = Some STATE_PRINTING)
    (Hs : s <> STATE_PAUSED) :
  exists h' added, Host.mcStateChange (Host.setTimelapse h (Some t_new)) s = Done h' /\
    h_trace h' = h_trace h ++ HPrintjobStopped t_old :: added /\
    In (HPrintjobStopped t_new) added /\
    (forall f, ~ In (HPrintjobStarted t_new f) added) /\
    h_timelapse h' = Some t_new.
Proof.
  destruct h as [[fd sd cm st job status hist mon calls] tl cbs tr].
  simpl in Hc, Ht, Hst. subst cm tl st.
  unfold Host.setTimelapse, Printer.isPrinting. cbn [h_timelapse h_printer p_comm]. rewrite Hp.
  unfold Host.mcStateChange.
  destruct s; try (exfalso; apply Hs; reflexivity);
    host_simpl; do 2 eexists; (split; [reflexivity|]);
    (split; [rewrite <- ?app_assoc; reflexivity|]);
    repeat split; simpl; intuition congruence.
Qed.

Lemma setTimelapse_midprint_witness :
  exists h' added, Host.mcStateChange (Host.setTimelapse printing_host (Some 2%nat)) STATE_OPERATIONAL = Done h' /\
    h_trace h' = h_trace printing_host ++ HPrintjobStopped 1 :: added /\
    In (HPrintjobStopped 2) added.
Proof.
  destruct (setTimelapse_midprint printing_host Scenario.comm_printing 1 2 STATE_OPERATIONAL
              eq_refl eq_refl eq_refl eq_refl ltac:(discriminate)) as (h' & added & E & T & S & _).
  exists h', added. split; [exact E|]. split; [exact T|exact S].
Defined.

(** The [GcodeLoader]'s last progress report on a one-line file. *)
Lemma gcode_loader_progress_witness :
  "G1 X1"%string <> EmptyString /\ (last (snd (GcodeLoader.run "G1 X1"%string)) 0 == 1)%Q.
Proof.
  assert (H : "G1 X1"%string <> EmptyString) by discriminate.
  split; [exact H|].
  exact (proj2 (proj2 (proj2 (gcode_loader_progress "G1 X1"%string))) H).
Defined.
